(** * Crossmint embedded wallet client: a shallow embedding

    The three operations of [src/tools/crossmint_embedded_wallet.ts]
    ([createCrossmintWallet], [getCrossmintWallet], [listCrossmintWallets])
    are embedded as computations in a small monad that carries what the
    TypeScript code relies on implicitly:

    - the behaviour of the global [fetch] (an oracle from requests to
      outcomes), which the operations read but do not control;
    - the log of the requests handed to [fetch], so that "no request is
      issued" and "the request targets this URL" can be stated;
    - exceptions, so that the [try { ... } catch (error) { ... }] of each
      operation is a real boundary and not an artefact of the types.

    JavaScript values are the values a JSON body can parse to, plus
    [undefined]. *)

From Stdlib Require Import String Ascii List Bool Arith ZArith Lia.
From Stdlib Require Import DecimalString DecimalNat.
Import ListNotations.
Open Scope string_scope.
Open Scope list_scope.

Set Implicit Arguments.
Set Warnings "-register-all".

(** ** The parts of the JavaScript engine left open

    Numbers are IEEE doubles; the program only ever tests one for
    truthiness and converts one to a string, so these two observations are
    all that is kept of them.  The texts of the engine's own [TypeError]s
    are not fixed by the language either. *)

Class Engine : Type := {
  Number : Type;
  (** [+0], [-0] and [NaN] *)
  number_is_falsy : Number -> bool;
  (** [Number::toString] in radix 10 *)
  number_to_string : Number -> string;
  (** message of the [TypeError] raised by [null.<name>] *)
  null_property_message : string -> string;
  (** message of the [TypeError] raised when an object has no usable
      [toString] or [valueOf] *)
  to_primitive_message : string
}.

(** ** Values *)

Section Values.
Context {E : Engine}.

(** What [JSON.parse] (and so [Response.json()]) can produce.  An object
    is the list of its own properties. *)
Inductive JSON : Type :=
| JNull
| JBool (b : bool)
| JNum (n : Number)
| JStr (s : string)
| JArr (elements : list JSON)
| JObj (properties : list (string * JSON)).

Inductive Value : Type :=
| Undefined
| Json (j : JSON).

(** An object literal built by the program: its properties in the order
    they are written.  Unlike a parsed object, a property may hold
    [undefined]. *)
Definition JSObject : Type := list (string * Value).

(** Every value thrown in this program is an [Error] object: the ones made
    by [new Error(...)], the engine's [TypeError]s, and the reasons with
    which [fetch] and [Response.json()] reject ([TypeError], [SyntaxError],
    [DOMException], a polyfill's [FetchError]).  The [catch] blocks read
    [message] and [code] and nothing else. *)
Record ErrorObj : Type := {
  message : string;
  code : Value
}.

Inductive Completion (A : Type) : Type :=
| Normal (a : A)
| Throw (e : ErrorObj).
Arguments Normal {A} a.
Arguments Throw {A} e.

Definition TypeError (msg : string) : ErrorObj :=
  {| message := msg; code := Undefined |}.

(** [ToBoolean] *)
Definition truthy (v : Value) : bool :=
  match v with
  | Undefined => false
  | Json JNull => false
  | Json (JBool b) => b
  | Json (JNum n) => negb (number_is_falsy n)
  | Json (JStr s) => negb (String.eqb s "")
  | Json (JArr _) => true
  | Json (JObj _) => true
  end.

(** [a || b] *)
Definition or_else (a b : Value) : Value :=
  if truthy a then a else b.

Fixpoint lookup {A : Type} (name : string) (props : list (string * A)) : option A :=
  match props with
  | [] => None
  | (k, v) :: rest => if String.eqb k name then Some v else lookup name rest
  end.

Definition has_property {A : Type} (name : string) (props : list (string * A)) : bool :=
  match lookup name props with
  | Some _ => true
  | None => false
  end.

(** [v.name] for a parsed value [v] and one of the names the program reads
    ([message], [walletId], [address], [wallets]).  None of them is a
    property of [Object.prototype], [Array.prototype], [String.prototype],
    [Number.prototype] or [Boolean.prototype], so only the own properties
    of an object can answer; [null] has no properties at all and the read
    throws. *)
Definition get_property (v : JSON) (name : string) : Completion Value :=
  match v with
  | JNull => Throw (TypeError (null_property_message name))
  | JObj props =>
      match lookup name props with
      | Some x => Normal (Json x)
      | None => Normal Undefined
      end
  | _ => Normal Undefined
  end.

(** [ToString] on a parsed value.  An array goes through
    [Array.prototype.join]: [null] elements print as the empty string and
    the others recursively, separated by commas.  An object goes through
    [OrdinaryToPrimitive]: an own [toString] property parsed from JSON is
    never callable and hides [Object.prototype.toString], after which
    [valueOf] (own and not callable, or inherited and returning the object)
    cannot help either, so the conversion throws; otherwise
    [Object.prototype.toString] answers. *)
Fixpoint to_string (j : JSON) : Completion string :=
  match j with
  | JNull => Normal "null"
  | JBool true => Normal "true"
  | JBool false => Normal "false"
  | JNum n => Normal (number_to_string n)
  | JStr s => Normal s
  | JArr elements =>
      let element (x : JSON) : Completion string :=
        match x with
        | JNull => Normal ""
        | _ => to_string x
        end in
      match elements with
      | [] => Normal ""
      | first :: others =>
          match element first with
          | Throw e => Throw e
          | Normal s0 =>
              (fix join (s : string) (l : list JSON) : Completion string :=
                 match l with
                 | [] => Normal s
                 | x :: rest =>
                     match element x with
                     | Normal t => join (s ++ "," ++ t)%string rest
                     | Throw e => Throw e
                     end
                 end) s0 others
          end
      end
  | JObj props =>
      if has_property "toString" props
      then Throw (TypeError to_primitive_message)
      else Normal "[object Object]"
  end.

(** [new Error(message)]: the message is converted with [ToString]
    (the program never passes [undefined]); the new object has no [code]. *)
Definition new_Error (msg : Value) : Completion ErrorObj :=
  match msg with
  | Undefined => Normal {| message := ""; code := Undefined |}
  | Json j =>
      match to_string j with
      | Normal s => Normal {| message := s; code := Undefined |}
      | Throw e => Throw e
      end
  end.

(** [s.startsWith(p)] *)
Definition startsWith (s p : string) : bool := String.prefix p s.

(** [`${n}`] for an integer status code *)
Definition status_to_string (n : nat) : string :=
  NilEmpty.string_of_uint (Nat.to_uint n).

End Values.

Arguments Normal {E A} a.
Arguments Throw {E A} e.

(** ** Requests, responses and the monad of the operations *)

Section Runtime.
Context {E : Engine}.

(** The two arguments of [fetch(url, init)].  [body] holds the value handed
    to [JSON.stringify], and [Undefined] when [init] has no body. *)
Record Request : Type := {
  url : string;
  method : string;
  headers : list (string * string);
  body : Value
}.

(** What the program observes of a [Response]: its status code, and what
    awaiting [response.json()] gives, the parsed body or the rejection
    reason (a [SyntaxError] for an empty or malformed body). *)
Record Response : Type := {
  status : nat;
  body_json : Completion JSON
}.

(** [response.ok]: the status is in the range 200-299. *)
Definition ok (r : Response) : bool :=
  ((200 <=? status r) && (status r <=? 299))%nat.

(** The behaviour of the network: what awaiting [fetch(request)] gives, a
    response or the rejection reason. *)
Definition Fetch : Type := Request -> Completion Response.

(** An async function body: it reads the network, appends to the log of
    requests issued, and completes normally or by throwing (a resolved or
    a rejected promise once it is the whole function). *)
Definition M (A : Type) : Type :=
  Fetch -> list Request -> Completion A * list Request.

Definition ret {A : Type} (a : A) : M A :=
  fun _ log => (Normal a, log).

Definition bind {A B : Type} (m : M A) (k : A -> M B) : M B :=
  fun net log =>
    match m net log with
    | (Normal a, log') => k a net log'
    | (Throw e, log') => (Throw e, log')
    end.

Definition throw {A : Type} (e : ErrorObj) : M A :=
  fun _ log => (Throw e, log).

Definition try_catch {A : Type} (block : M A) (handler : ErrorObj -> M A) : M A :=
  fun net log =>
    match block net log with
    | (Normal a, log') => (Normal a, log')
    | (Throw e, log') => handler e net log'
    end.

Definition lift {A : Type} (c : Completion A) : M A :=
  fun _ log => (c, log).

(** [await fetch(url, init)] *)
Definition fetch (req : Request) : M Response :=
  fun net log => (net req, log ++ [req]).

(** [await response.json()] *)
Definition json (r : Response) : M JSON := lift (body_json r).

(** [if (c) { ... }] around a block that can only throw *)
Definition when (c : bool) (m : M unit) : M unit :=
  if c then m else ret tt.

End Runtime.

Declare Scope js_scope.
Delimit Scope js_scope with js.
Notation "x <- m ;; k" := (bind m (fun x => k))
  (at level 100, m at next level, right associativity) : js_scope.
Notation "m ;; k" := (bind m (fun _ => k))
  (at level 100, right associativity) : js_scope.
(** a string literal as a value *)
Abbreviation str s := (Json (JStr s)).

(** ** The three operations *)

Section Operations.
Context {E : Engine}.
(** The [agent] argument is an instance of a class defined elsewhere; no
    operation reads it. *)
Variable SolanaAgentKit : Type.

Open Scope js_scope.

(** [throw new Error(v)] *)
Definition throw_new_Error {A : Type} (v : Value) : M A :=
  e <- lift (new_Error v) ;; throw e.

(** The block shared by the three operations:
<<
    if (!response.ok) {
      const errorData = await response.json();
      throw new Error(
        errorData.message || `HTTP error! status: ${response.status}`,
      );
    }
>> *)
Definition check_ok (response : Response) : M unit :=
  when (negb (ok response))
    (errorData <- json response ;;
     msg <- lift (get_property errorData "message") ;;
     throw_new_Error
       (or_else msg (str ("HTTP error! status: " ++ status_to_string (status response))%string))).

Definition createCrossmintWallet_request (linkedUser apiKey : string) : Request :=
  {| url := "https://staging.crossmint.com/api/v1-alpha2/wallets";
     method := "POST";
     headers := [("X-API-KEY", apiKey); ("Content-Type", "application/json")];
     body := Json (JObj [("type", JStr "solana-mpc-wallet");
                         ("linkedUser", JStr linkedUser)]) |}.

Definition createCrossmintWallet_try (linkedUser apiKey : string) : M JSObject :=
  when (negb (startsWith linkedUser "email:") && negb (startsWith linkedUser "id:"))
    (throw_new_Error
       (str "linkedUser must start with 'email:' or 'id:' followed by the identifier")) ;;
  when (negb (truthy (str apiKey)) || negb (startsWith apiKey "sk_"))
    (throw_new_Error (str "Invalid Crossmint API key format")) ;;
  response <- fetch (createCrossmintWallet_request linkedUser apiKey) ;;
  check_ok response ;;
  data <- json response ;;
  walletId <- lift (get_property data "walletId") ;;
  address <- lift (get_property data "address") ;;
  ret [("status", str "success"); ("walletId", walletId); ("address", address)].

Definition createCrossmintWallet_catch (error : ErrorObj) : M JSObject :=
  ret [("status", str "error");
       ("message", str (message error));
       ("code", or_else (code error) (str "WALLET_CREATION_ERROR"))].

Definition createCrossmintWallet
    (agent : SolanaAgentKit) (linkedUser apiKey : string) : M JSObject :=
  try_catch (createCrossmintWallet_try linkedUser apiKey) createCrossmintWallet_catch.

Definition getCrossmintWallet_request (walletId apiKey : string) : Request :=
  {| url := ("https://staging.crossmint.com/api/v1-alpha2/wallets/" ++ walletId)%string;
     method := "GET";
     headers := [("X-API-KEY", apiKey); ("Content-Type", "application/json")];
     body := Undefined |}.

Definition getCrossmintWallet_try (walletId apiKey : string) : M JSObject :=
  response <- fetch (getCrossmintWallet_request walletId apiKey) ;;
  check_ok response ;;
  data <- json response ;;
  walletId' <- lift (get_property data "walletId") ;;
  address <- lift (get_property data "address") ;;
  ret [("status", str "success"); ("walletId", walletId'); ("address", address)].

Definition getCrossmintWallet_catch (error : ErrorObj) : M JSObject :=
  ret [("status", str "error");
       ("message", str (message error));
       ("code", or_else (code error) (str "WALLET_FETCH_ERROR"))].

Definition getCrossmintWallet
    (agent : SolanaAgentKit) (walletId apiKey : string) : M JSObject :=
  try_catch (getCrossmintWallet_try walletId apiKey) getCrossmintWallet_catch.

Definition listCrossmintWallets_request (apiKey : string) : Request :=
  {| url := "https://staging.crossmint.com/api/v1-alpha2/wallets";
     method := "GET";
     headers := [("X-API-KEY", apiKey); ("Content-Type", "application/json")];
     body := Undefined |}.

Definition listCrossmintWallets_try (apiKey : string) : M JSObject :=
  response <- fetch (listCrossmintWallets_request apiKey) ;;
  check_ok response ;;
  data <- json response ;;
  wallets <- lift (get_property data "wallets") ;;
  ret [("status", str "success"); ("wallets", wallets)].

Definition listCrossmintWallets_catch (error : ErrorObj) : M JSObject :=
  ret [("status", str "error");
       ("message", str (message error));
       ("code", or_else (code error) (str "WALLET_LIST_ERROR"))].

Definition listCrossmintWallets
    (agent : SolanaAgentKit) (apiKey : string) : M JSObject :=
  try_catch (listCrossmintWallets_try apiKey) listCrossmintWallets_catch.

(** Running an operation against a network, from an empty log: the
    settlement of the promise it returns, and the requests it issued. *)
Definition run {A : Type} (m : M A) (net : Fetch) : Completion A * list Request :=
  m net [].

Definition result {A : Type} (m : M A) (net : Fetch) : Completion A := fst (run m net).
Definition requests {A : Type} (m : M A) (net : Fetch) : list Request := snd (run m net).

End Operations.

(** ** A concrete engine

    V8 (Node.js), with its message texts.  Numbers are cut down to the
    integral doubles of the safe range, which [Number::toString] prints in
    plain decimal; [0] is the only falsy one among them. *)

#[export] Instance V8 : Engine := {|
  Number := Z;
  number_is_falsy := fun z => Z.eqb z 0;
  number_to_string := fun z => NilZero.string_of_int (Z.to_int z);
  null_property_message := fun name =>
    ("Cannot read properties of null (reading '" ++ name ++ "')")%string;
  to_primitive_message := "Cannot convert object to primitive value"
|}.

(** A network that answers every request with the same response. *)
Definition always {E : Engine} (r : Response) : Fetch := fun _ => Normal r.

(** A network on which every request fails. *)
Definition unreachable {E : Engine} (e : ErrorObj) : Fetch := fun _ => Throw e.

(** Sample responses, for runs on the concrete engine. *)

(** 200, [{walletId: "w1", address: "addr1"}] *)
Definition created_200 : Response :=
  {| status := 200;
     body_json := Normal (JObj [("walletId", JStr "w1"); ("address", JStr "addr1")]) |}.

(** 200, [{wallets: ["w1", "w2"]}] *)
Definition listed_200 : Response :=
  {| status := 200;
     body_json := Normal (JObj [("wallets", JArr [JStr "w1"; JStr "w2"])]) |}.

(** 400, [{message: "bad request"}] *)
Definition bad_request_400 : Response :=
  {| status := 400;
     body_json := Normal (JObj [("message", JStr "bad request")]) |}.

(** The body is the JSON text [null]. *)
Definition null_body (status_code : nat) : Response :=
  {| status := status_code; body_json := Normal JNull |}.

(** The body is empty: [response.json()] rejects with V8's [SyntaxError]. *)
Definition empty_body (status_code : nat) : Response :=
  {| status := status_code;
     body_json := Throw {| message := "Unexpected end of JSON input"; code := Undefined |} |}.

(** ** Vocabulary of the statements *)

Section Vocabulary.
Context {E : Engine}.

(** The field [name] of a parsed body, as the specification speaks of it:
    the own property of an object that has one, [undefined] otherwise. *)
Definition field (j : JSON) (name : string) : Value :=
  match j with
  | JObj props =>
      match lookup name props with
      | Some x => Json x
      | None => Undefined
      end
  | _ => Undefined
  end.

(** The [linkedUser] check of [createCrossmintWallet] passes. *)
Definition valid_linkedUser (linkedUser : string) : Prop :=
  startsWith linkedUser "email:" = true \/ startsWith linkedUser "id:" = true.

(** The [apiKey] check of [createCrossmintWallet] passes. *)
Definition valid_apiKey (apiKey : string) : Prop :=
  apiKey <> "" /\ startsWith apiKey "sk_" = true.

(** The network answers [req] with [response], whose body parses to [j]. *)
Definition answers (net : Fetch) (req : Request) (response : Response) (j : JSON) : Prop :=
  net req = Normal response /\ body_json response = Normal j.

(** The exchange for [req] fails: [fetch] rejects, or the status is not a
    success, or the body does not parse, or it parses to [null] (reading
    a property of which throws).  These are all the ways: on every other
    exchange the operations succeed. *)
Definition exchange_fails (net : Fetch) (req : Request) : Prop :=
  match net req with
  | Throw _ => True
  | Normal response =>
      ok response = false
      \/ (exists e, body_json response = Throw e)
      \/ body_json response = Normal JNull
  end.

Definition success_result (r : JSObject) : Prop :=
  lookup "status" r = Some (str "success").

(** Status ["error"], with a [message] and a [code]: the object has
    exactly these three properties, its message is a string and its code
    is a truthy value (so neither is [undefined]). *)
Definition error_result (r : JSObject) : Prop :=
  exists (text : string) (c : Value),
    r = [("status", str "error"); ("message", str text); ("code", c)]
    /\ truthy c = true.

(** The promise of [op] is fulfilled whatever the network does, with a
    result that is an error result on every run on which [failure] holds
    and a success result on every other run. *)
Definition always_returns (op : M JSObject) (failure : Fetch -> Prop) : Prop :=
  forall net : Fetch,
    exists r : JSObject,
      result op net = Normal r
      /\ (success_result r \/ error_result r)
      /\ (failure net -> error_result r)
      /\ (~ failure net -> success_result r).

(** The two shapes of a result. *)
Definition success_shape (r : JSObject) : Prop :=
  lookup "status" r = Some (str "success")
  /\ has_property "message" r = false
  /\ has_property "code" r = false.

Definition error_shape (r : JSObject) : Prop :=
  lookup "status" r = Some (str "error")
  /\ has_property "walletId" r = false
  /\ has_property "address" r = false
  /\ has_property "wallets" r = false.

(** The object built by a [catch] block whose fallback code is [fallback]. *)
Definition error_object (e : ErrorObj) (fallback : string) : JSObject :=
  [("status", str "error");
   ("message", str (message e));
   ("code", or_else (code e) (str fallback))].

(** The error made by [new Error(text)] for a string [text]. *)
Definition Error_of (text : string) : ErrorObj :=
  {| message := text; code := Undefined |}.

(** Closed form of what [createCrossmintWallet] and [getCrossmintWallet]
    return once [fetch] has settled with [outcome], the [catch] block
    included.  [createCrossmintWallet_run] and [getCrossmintWallet_run]
    prove that the code computes it. *)
Definition wallet_continuation (fallback : string) (outcome : Completion Response) : JSObject :=
  match outcome with
  | Throw e => error_object e fallback
  | Normal response =>
      if ok response then
        match body_json response with
        | Throw e => error_object e fallback
        | Normal JNull =>
            error_object (TypeError (null_property_message "walletId")) fallback
        | Normal data =>
            [("status", str "success");
             ("walletId", field data "walletId");
             ("address", field data "address")]
        end
      else
        match body_json response with
        | Throw e => error_object e fallback
        | Normal JNull =>
            error_object (TypeError (null_property_message "message")) fallback
        | Normal errorData =>
            match new_Error (or_else (field errorData "message")
                     (str ("HTTP error! status: " ++ status_to_string (status response))%string)) with
            | Normal e => error_object e fallback
            | Throw e => error_object e fallback
            end
        end
  end.

(** The same for [listCrossmintWallets] ([listCrossmintWallets_run]). *)
Definition list_continuation (outcome : Completion Response) : JSObject :=
  match outcome with
  | Throw e => error_object e "WALLET_LIST_ERROR"
  | Normal response =>
      if ok response then
        match body_json response with
        | Throw e => error_object e "WALLET_LIST_ERROR"
        | Normal JNull =>
            error_object (TypeError (null_property_message "wallets")) "WALLET_LIST_ERROR"
        | Normal data =>
            [("status", str "success"); ("wallets", field data "wallets")]
        end
      else
        match body_json response with
        | Throw e => error_object e "WALLET_LIST_ERROR"
        | Normal JNull =>
            error_object (TypeError (null_property_message "message")) "WALLET_LIST_ERROR"
        | Normal errorData =>
            match new_Error (or_else (field errorData "message")
                     (str ("HTTP error! status: " ++ status_to_string (status response))%string)) with
            | Normal e => error_object e "WALLET_LIST_ERROR"
            | Throw e => error_object e "WALLET_LIST_ERROR"
            end
        end
  end.

End Vocabulary.

(** ** Vocabulary of the further properties *)

Section MoreVocabulary.
Context {E : Engine}.

(** A parsed body that is a boolean, a number, a string or an array: it
    can be read for a property, and has none of those the program reads. *)
Definition without_fields (j : JSON) : Prop :=
  match j with
  | JNull => False
  | JObj _ => False
  | _ => True
  end.

(** The shape [createCrossmintWallet] asks of its arguments, spelled out:
    one of the two prefixes followed by anything, and ["sk_"] followed by
    anything. *)
Definition prefixed_linkedUser (linkedUser : string) : Prop :=
  (exists identifier, linkedUser = ("email:" ++ identifier)%string)
  \/ (exists identifier, linkedUser = ("id:" ++ identifier)%string).

Definition prefixed_apiKey (apiKey : string) : Prop :=
  exists secret, apiKey = ("sk_" ++ secret)%string.

(** The error result with a plain message and a given code. *)
Definition error_literal (text : string) (c : Value) : JSObject :=
  [("status", str "error"); ("message", str text); ("code", c)].

End MoreVocabulary.

(** More sample outcomes, for runs on the concrete engine. *)

(** A connection refused, as a transport that sets [code] reports it. *)
Definition refused : ErrorObj :=
  {| message := "fetch failed"; code := str "ECONNREFUSED" |}.

(** 404, [{}] *)
Definition not_found_404 : Response :=
  {| status := 404; body_json := Normal (JObj []) |}.

(** 403, [{message: "forbidden", code: "E_FORBIDDEN"}] *)
Definition forbidden_403 : Response :=
  {| status := 403;
     body_json := Normal (JObj [("message", JStr "forbidden");
                                ("code", JStr "E_FORBIDDEN")]) |}.

(** 200, ["OK"] *)
Definition plain_200 : Response :=
  {| status := 200; body_json := Normal (JStr "OK") |}.

(** ** Proof steps *)

(** Unfolds the operations and the monad down to matches. *)
Ltac js_unfold :=
  unfold result, requests, run,
    createCrossmintWallet, createCrossmintWallet_try, createCrossmintWallet_catch,
    getCrossmintWallet, getCrossmintWallet_try, getCrossmintWallet_catch,
    listCrossmintWallets, listCrossmintWallets_try, listCrossmintWallets_catch,
    try_catch, bind, when, fetch, json, lift, throw_new_Error, throw, ret in *.

(** Case analysis on what [fetch] gave, as the closed forms make it. *)
Ltac continuation_cases outcome :=
  destruct outcome as [response|e]; simpl;
  [ destruct (ok response);
    (destruct (body_json response) as [[ | b | n | s | elements | properties ]|e];
     try destruct (new_Error _))
  | ].

(** ** Basic facts *)

Unset Implicit Arguments.

Section Facts.
Context {E : Engine}.

Lemma truthy_str_nonempty (s : string) : s <> "" -> truthy (str s) = true.
Proof.
  intros Hs. simpl. destruct (String.eqb_spec s ""); [contradiction | reflexivity].
Qed.

Lemma get_property_field (j : JSON) (name : string) :
  j <> JNull -> get_property j name = Normal (field j name).
Proof.
  intros Hj. destruct j; try reflexivity.
  - contradiction.
  - simpl. destruct (lookup name properties); reflexivity.
Qed.

(** Induction on parsed values that reaches inside arrays. *)
Lemma JSON_elements_ind (P : JSON -> Prop) :
  P JNull ->
  (forall b, P (JBool b)) ->
  (forall n, P (JNum n)) ->
  (forall s, P (JStr s)) ->
  (forall elements, Forall P elements -> P (JArr elements)) ->
  (forall properties, P (JObj properties)) ->
  forall j, P j.
Proof.
  intros Hnull Hbool Hnum Hstr Harr Hobj.
  fix IH 1. intros [ | b | n | s | elements | properties ].
  - exact Hnull.
  - apply Hbool.
  - apply Hnum.
  - apply Hstr.
  - apply Harr. induction elements as [|x rest IHrest]; constructor.
    + apply IH.
    + exact IHrest.
  - apply Hobj.
Qed.

(** The only exception [ToString] raises on a parsed value is the engine's
    own [TypeError], which has no [code]. *)
Lemma to_string_throws (j : JSON) (e : ErrorObj) :
  to_string j = Throw e -> e = TypeError to_primitive_message.
Proof.
  revert e. induction j as [ | b | n | s | elements IH | properties ]
    using JSON_elements_ind; intros e; simpl.
  - discriminate.
  - destruct b; discriminate.
  - discriminate.
  - discriminate.
  - destruct IH as [|first others Hfirst Hothers]; [discriminate|].
    assert (Helement : forall x, (forall e', to_string x = Throw e' ->
                                     e' = TypeError to_primitive_message) ->
              forall e', match x with JNull => Normal ""%string | _ => to_string x end = Throw e' ->
                    e' = TypeError to_primitive_message).
    { intros x Hx e'. destruct x; try discriminate; apply Hx. }
    destruct (match first with JNull => Normal ""%string | _ => to_string first end)
      as [s0|e0] eqn:H0.
    + clear H0 Hfirst. revert s0.
      induction Hothers as [|x rest Hx Hrest IHrest]; intros s0; [discriminate|].
      destruct (match x with JNull => Normal ""%string | _ => to_string x end)
        as [t|e1] eqn:H1.
      * apply IHrest.
      * intros [= <-]. exact (Helement x Hx e1 H1).
    + intros [= <-]. exact (Helement first Hfirst e0 H0).
  - destruct (has_property "toString" properties); [|discriminate].
    now intros [= <-].
Qed.

Lemma new_Error_code (v : Value) (e : ErrorObj) :
  new_Error v = Normal e -> code e = Undefined.
Proof.
  destruct v as [|j]; simpl.
  - now intros [= <-].
  - destruct (to_string j); [|discriminate]. now intros [= <-].
Qed.

Lemma new_Error_throws (v : Value) (e : ErrorObj) :
  new_Error v = Throw e -> code e = Undefined.
Proof.
  destruct v as [|j]; simpl; [discriminate|].
  destruct (to_string j) as [s|e'] eqn:Hj; [discriminate|].
  intros [= <-]. now rewrite (to_string_throws j e' Hj).
Qed.

Lemma ok_range (r : Response) : ok r = true <-> 200 <= status r <= 299.
Proof.
  unfold ok. rewrite Bool.andb_true_iff, !Nat.leb_le. reflexivity.
Qed.

Lemma substring_append (a b : string) :
  substring (String.length a) (String.length b) (a ++ b) = b.
Proof.
  induction a as [|c a IH]; simpl.
  - induction b as [|c b IHb]; simpl; [reflexivity | now rewrite IHb].
  - exact IH.
Qed.

End Facts.

(** ** How the operations run *)

Section Running.
Context {E : Engine}.

Lemma try_catch_skip {A : Type} (m : M unit) (k : M A) (handler : ErrorObj -> M A)
      (net : Fetch) (log : list Request) :
  try_catch (when false m ;; k)%js handler net log = try_catch k handler net log.
Proof. reflexivity. Qed.

Lemma try_catch_fetch {A : Type} (req : Request) (k : Response -> M A)
      (handler : ErrorObj -> M A) (net : Fetch) (log : list Request) :
  try_catch (response <- fetch req ;; k response)%js handler net log =
    match net req with
    | Normal response => try_catch (k response) handler net (log ++ [req])
    | Throw e => handler e net (log ++ [req])
    end.
Proof. unfold try_catch, bind, fetch. destruct (net req); reflexivity. Qed.

Lemma check_ok_success (response : Response) (net : Fetch) (log : list Request) :
  ok response = true -> check_ok response net log = (Normal tt, log).
Proof. intros Hok. unfold check_ok, when. rewrite Hok. reflexivity. Qed.

Lemma check_ok_unparsed (response : Response) (e : ErrorObj) (net : Fetch) (log : list Request) :
  ok response = false -> body_json response = Throw e ->
  check_ok response net log = (Throw e, log).
Proof.
  intros Hok Hbody. unfold check_ok, when. rewrite Hok. js_unfold. simpl.
  rewrite Hbody. reflexivity.
Qed.

Lemma check_ok_null (response : Response) (net : Fetch) (log : list Request) :
  ok response = false -> body_json response = Normal JNull ->
  check_ok response net log = (Throw (TypeError (null_property_message "message")), log).
Proof.
  intros Hok Hbody. unfold check_ok, when. rewrite Hok. js_unfold. simpl.
  rewrite Hbody. reflexivity.
Qed.

Lemma check_ok_parsed (response : Response) (j : JSON) (net : Fetch) (log : list Request) :
  ok response = false -> body_json response = Normal j -> j <> JNull ->
  check_ok response net log =
    (match new_Error (or_else (field j "message")
                        (str ("HTTP error! status: " ++ status_to_string (status response))%string)) with
     | Normal e => Throw e
     | Throw e => Throw e
     end, log).
Proof.
  intros Hok Hbody Hj. unfold check_ok, when. rewrite Hok. js_unfold. simpl.
  rewrite Hbody, (get_property_field j "message" Hj).
  destruct (new_Error _); reflexivity.
Qed.

End Running.

Section Outcomes.
Context {E : Engine}.
Variable SolanaAgentKit : Type.
Variable agent : SolanaAgentKit.

Lemma valid_linkedUser_check (linkedUser : string) :
  valid_linkedUser linkedUser ->
  negb (startsWith linkedUser "email:") && negb (startsWith linkedUser "id:") = false.
Proof.
  intros [H|H]; rewrite H; simpl; [reflexivity | apply Bool.andb_false_r].
Qed.

Lemma valid_apiKey_check (apiKey : string) :
  valid_apiKey apiKey ->
  negb (truthy (str apiKey)) || negb (startsWith apiKey "sk_") = false.
Proof.
  intros [Hne Hsk]. rewrite (truthy_str_nonempty apiKey Hne), Hsk. reflexivity.
Qed.

Lemma invalid_linkedUser_check (linkedUser : string) :
  ~ valid_linkedUser linkedUser ->
  negb (startsWith linkedUser "email:") && negb (startsWith linkedUser "id:") = true.
Proof.
  unfold valid_linkedUser. intros H.
  destruct (startsWith linkedUser "email:"); [exfalso; auto|].
  destruct (startsWith linkedUser "id:"); [exfalso; auto|]. reflexivity.
Qed.

Lemma invalid_apiKey_check (apiKey : string) :
  ~ valid_apiKey apiKey ->
  negb (truthy (str apiKey)) || negb (startsWith apiKey "sk_") = true.
Proof.
  unfold valid_apiKey. intros H. simpl.
  destruct (String.eqb_spec apiKey ""); [reflexivity|].
  destruct (startsWith apiKey "sk_"); [exfalso; auto | reflexivity].
Qed.


Lemma wallet_block_run (fallback : string) (response : Response)
      (net : Fetch) (log : list Request) (handler : ErrorObj -> M JSObject) :
  (forall e net' log', handler e net' log' = (Normal (error_object e fallback), log')) ->
  try_catch
    (check_ok response ;;
     data <- json response ;;
     walletId <- lift (get_property data "walletId") ;;
     address <- lift (get_property data "address") ;;
     ret [("status", str "success"); ("walletId", walletId); ("address", address)])%js
    handler net log
  = (Normal (wallet_continuation fallback (Normal response)), log).
Proof.
  intros Hh. unfold try_catch, bind at 1. simpl.
  destruct (ok response) eqn:Hok.
  - rewrite (check_ok_success response _ _ Hok). js_unfold.
    destruct (body_json response) as [j|e]; [|now rewrite Hh].
    destruct j; simpl; try reflexivity; try now rewrite Hh.
    destruct (lookup "walletId" properties), (lookup "address" properties); reflexivity.
  - destruct (body_json response) as [j|e] eqn:Hbody.
    + destruct j eqn:Hj.
      1: { rewrite (check_ok_null response _ _ Hok Hbody). now rewrite Hh. }
      all: rewrite (check_ok_parsed response j) by (subst; congruence);
        subst j; destruct (new_Error _); now rewrite Hh.
    + rewrite (check_ok_unparsed response e _ _ Hok Hbody). now rewrite Hh.
Qed.

Lemma list_block_run (response : Response)
      (net : Fetch) (log : list Request) (handler : ErrorObj -> M JSObject) :
  (forall e net' log', handler e net' log' = (Normal (error_object e "WALLET_LIST_ERROR"), log')) ->
  try_catch
    (check_ok response ;;
     data <- json response ;;
     wallets <- lift (get_property data "wallets") ;;
     ret [("status", str "success"); ("wallets", wallets)])%js
    handler net log
  = (Normal (list_continuation (Normal response)), log).
Proof.
  intros Hh. unfold try_catch, bind at 1. simpl.
  destruct (ok response) eqn:Hok.
  - rewrite (check_ok_success response _ _ Hok). js_unfold.
    destruct (body_json response) as [j|e]; [|now rewrite Hh].
    destruct j; simpl; try reflexivity; try now rewrite Hh.
    destruct (lookup "wallets" properties); reflexivity.
  - destruct (body_json response) as [j|e] eqn:Hbody.
    + destruct j eqn:Hj.
      1: { rewrite (check_ok_null response _ _ Hok Hbody). now rewrite Hh. }
      all: rewrite (check_ok_parsed response j) by (subst; congruence);
        subst j; destruct (new_Error _); now rewrite Hh.
    + rewrite (check_ok_unparsed response e _ _ Hok Hbody). now rewrite Hh.
Qed.

(** The run equations: each operation, run against any network, fulfils
    its promise with the closed form applied to what [fetch] gave. *)

Lemma createCrossmintWallet_run (linkedUser apiKey : string) (net : Fetch) :
  valid_linkedUser linkedUser -> valid_apiKey apiKey ->
  run (createCrossmintWallet agent linkedUser apiKey) net =
    (Normal (wallet_continuation "WALLET_CREATION_ERROR"
               (net (createCrossmintWallet_request linkedUser apiKey))),
     [createCrossmintWallet_request linkedUser apiKey]).
Proof.
  intros Hu Hk.
  pose proof (wallet_block_run "WALLET_CREATION_ERROR") as Hblock.
  unfold run, createCrossmintWallet, createCrossmintWallet_try.
  rewrite (valid_linkedUser_check linkedUser Hu), (valid_apiKey_check apiKey Hk).
  rewrite !try_catch_skip, try_catch_fetch. simpl.
  destruct (net (createCrossmintWallet_request linkedUser apiKey)) as [response|e];
    [|reflexivity].
  apply (Hblock response net _ createCrossmintWallet_catch). reflexivity.
Qed.

Lemma createCrossmintWallet_run_linkedUser (linkedUser apiKey : string) (net : Fetch) :
  ~ valid_linkedUser linkedUser ->
  run (createCrossmintWallet agent linkedUser apiKey) net =
    (Normal (error_object
               (Error_of "linkedUser must start with 'email:' or 'id:' followed by the identifier")
               "WALLET_CREATION_ERROR"),
     []).
Proof.
  intros Hu. js_unfold. rewrite (invalid_linkedUser_check linkedUser Hu). reflexivity.
Qed.

Lemma createCrossmintWallet_run_apiKey (linkedUser apiKey : string) (net : Fetch) :
  valid_linkedUser linkedUser -> ~ valid_apiKey apiKey ->
  run (createCrossmintWallet agent linkedUser apiKey) net =
    (Normal (error_object (Error_of "Invalid Crossmint API key format")
               "WALLET_CREATION_ERROR"),
     []).
Proof.
  intros Hu Hk. js_unfold.
  rewrite (valid_linkedUser_check linkedUser Hu), (invalid_apiKey_check apiKey Hk).
  reflexivity.
Qed.

Lemma getCrossmintWallet_run (walletId apiKey : string) (net : Fetch) :
  run (getCrossmintWallet agent walletId apiKey) net =
    (Normal (wallet_continuation "WALLET_FETCH_ERROR"
               (net (getCrossmintWallet_request walletId apiKey))),
     [getCrossmintWallet_request walletId apiKey]).
Proof.
  pose proof (wallet_block_run "WALLET_FETCH_ERROR") as Hblock.
  unfold run, getCrossmintWallet, getCrossmintWallet_try.
  rewrite try_catch_fetch. simpl.
  destruct (net (getCrossmintWallet_request walletId apiKey)) as [response|e];
    [|reflexivity].
  apply (Hblock response net _ getCrossmintWallet_catch). reflexivity.
Qed.

Lemma listCrossmintWallets_run (apiKey : string) (net : Fetch) :
  run (listCrossmintWallets agent apiKey) net =
    (Normal (list_continuation (net (listCrossmintWallets_request apiKey))),
     [listCrossmintWallets_request apiKey]).
Proof.
  pose proof list_block_run as Hblock.
  unfold run, listCrossmintWallets, listCrossmintWallets_try.
  rewrite try_catch_fetch. simpl.
  destruct (net (listCrossmintWallets_request apiKey)) as [response|e];
    [|reflexivity].
  apply (Hblock response net _ listCrossmintWallets_catch). reflexivity.
Qed.

End Outcomes.

(** ** Results of the closed forms *)

Section Shapes.
Context {E : Engine}.

Lemma error_object_result (e : ErrorObj) (fallback : string) :
  fallback <> "" -> error_result (error_object e fallback).
Proof.
  intros Hne. exists (message e), (or_else (code e) (str fallback)).
  split; [reflexivity|]. unfold or_else.
  destruct (truthy (code e)) eqn:Hcode; [exact Hcode|].
  now apply truthy_str_nonempty.
Qed.

Lemma error_object_shape (e : ErrorObj) (fallback : string) :
  error_shape (error_object e fallback).
Proof. repeat split. Qed.

Lemma error_object_no_code (e : ErrorObj) (fallback : string) :
  code e = Undefined ->
  error_object e fallback =
    [("status", str "error"); ("message", str (message e)); ("code", str fallback)].
Proof. intros He. unfold error_object. rewrite He. reflexivity. Qed.

Lemma wallet_continuation_cases (fallback : string) (outcome : Completion Response) :
  (exists e, wallet_continuation fallback outcome = error_object e fallback)
  \/ (exists walletId address,
        wallet_continuation fallback outcome =
          [("status", str "success"); ("walletId", walletId); ("address", address)]).
Proof.
  continuation_cases outcome;
    solve [ left; eexists; reflexivity | right; do 2 eexists; reflexivity ].
Qed.

Lemma list_continuation_cases (outcome : Completion Response) :
  (exists e, list_continuation outcome = error_object e "WALLET_LIST_ERROR")
  \/ (exists wallets,
        list_continuation outcome = [("status", str "success"); ("wallets", wallets)]).
Proof.
  continuation_cases outcome;
    solve [ left; eexists; reflexivity | right; eexists; reflexivity ].
Qed.

(** The closed forms give an error result on the failing exchanges and a
    success result on all the others. *)
Lemma wallet_continuation_verdict (fallback : string) (net : Fetch) (req : Request) :
  fallback <> "" ->
  (exchange_fails net req -> error_result (wallet_continuation fallback (net req)))
  /\ (~ exchange_fails net req -> success_result (wallet_continuation fallback (net req))).
Proof.
  intros Hne. unfold exchange_fails.
  destruct (net req) as [response|e]; simpl.
  - destruct (ok response) eqn:Hok.
    + destruct (body_json response) as [j|e] eqn:Hbody.
      * destruct j.
        1: { split; [intros _; now apply error_object_result|].
             intros H. exfalso. apply H. now right; right. }
        all: split; [intros [H | [[e H] | H]]; discriminate | intros _; reflexivity].
      * split; [intros _; now apply error_object_result|].
        intros H. exfalso. apply H. right; left. now exists e.
    + split.
      * intros _.
        destruct (body_json response) as [[ | b | n | s | elements | properties ]|e];
          try destruct (new_Error _); now apply error_object_result.
      * intros H. exfalso. apply H. now left.
  - split; [intros _; now apply error_object_result|].
    intros H. exfalso. now apply H.
Qed.

Lemma list_continuation_verdict (net : Fetch) (req : Request) :
  (exchange_fails net req -> error_result (list_continuation (net req)))
  /\ (~ exchange_fails net req -> success_result (list_continuation (net req))).
Proof.
  assert (Hne : "WALLET_LIST_ERROR"%string <> ""%string) by discriminate.
  unfold exchange_fails.
  destruct (net req) as [response|e]; simpl.
  - destruct (ok response) eqn:Hok.
    + destruct (body_json response) as [j|e] eqn:Hbody.
      * destruct j.
        1: { split; [intros _; now apply error_object_result|].
             intros H. exfalso. apply H. now right; right. }
        all: split; [intros [H | [[e H] | H]]; discriminate | intros _; reflexivity].
      * split; [intros _; now apply error_object_result|].
        intros H. exfalso. apply H. right; left. now exists e.
    + split.
      * intros _.
        destruct (body_json response) as [[ | b | n | s | elements | properties ]|e];
          try destruct (new_Error _); now apply error_object_result.
      * intros H. exfalso. apply H. now left.
  - split; [intros _; now apply error_object_result|].
    intros H. exfalso. now apply H.
Qed.

Lemma valid_linkedUser_decide (linkedUser : string) :
  valid_linkedUser linkedUser \/ ~ valid_linkedUser linkedUser.
Proof.
  unfold valid_linkedUser.
  destruct (startsWith linkedUser "email:"); [now left; left|].
  destruct (startsWith linkedUser "id:"); [now left; right|].
  right. intros [H|H]; discriminate.
Qed.

Lemma valid_apiKey_decide (apiKey : string) :
  valid_apiKey apiKey \/ ~ valid_apiKey apiKey.
Proof.
  unfold valid_apiKey.
  destruct (String.eqb_spec apiKey ""); [right; tauto|].
  destruct (startsWith apiKey "sk_"); [now left|].
  right. intros [_ H]. discriminate.
Qed.

(** The second check of [createCrossmintWallet] fails exactly on the keys
    that are empty or do not start with [sk_]. *)
Lemma invalid_apiKey_iff (apiKey : string) :
  ~ valid_apiKey apiKey <-> (apiKey = "" \/ startsWith apiKey "sk_" = false).
Proof.
  unfold valid_apiKey. split.
  - intros H. destruct (String.eqb_spec apiKey ""); [now left|].
    destruct (startsWith apiKey "sk_"); [exfalso; auto | now right].
  - intros [H|H] [Hne Hsk]; congruence.
Qed.

Lemma invalid_linkedUser_iff (linkedUser : string) :
  ~ valid_linkedUser linkedUser <->
  (startsWith linkedUser "email:" = false /\ startsWith linkedUser "id:" = false).
Proof.
  unfold valid_linkedUser. split.
  - intros H. destruct (startsWith linkedUser "email:"); [exfalso; auto|].
    destruct (startsWith linkedUser "id:"); [exfalso; auto|]. now split.
  - intros [H1 H2] [H|H]; congruence.
Qed.

End Shapes.

(** ** The properties of the operations *)

Section Claims.
Context {E : Engine}.
Variable SolanaAgentKit : Type.
Variable agent : SolanaAgentKit.

(** C1.  Whatever the arguments and whatever [fetch] does (a response with
    a success status, a response with another status, a rejection, a body
    that does not parse), the promise of each of the three operations is
    fulfilled with a result object and never rejected.  On every failing
    run (a failed input check, a rejected [fetch], a non-success status,
    a body that does not parse or parses to [null]) the result is exactly
    [{status: "error", message, code}] with a string for message and a
    truthy code; on every other run it has status ["success"], so no
    failing run is left out. *)
Theorem operations_never_throw (linkedUser walletId apiKey : string) :
  always_returns (createCrossmintWallet agent linkedUser apiKey)
    (fun net =>
       ~ valid_linkedUser linkedUser
       \/ ~ valid_apiKey apiKey
       \/ exchange_fails net (createCrossmintWallet_request linkedUser apiKey))
  /\ always_returns (getCrossmintWallet agent walletId apiKey)
       (fun net => exchange_fails net (getCrossmintWallet_request walletId apiKey))
  /\ always_returns (listCrossmintWallets agent apiKey)
       (fun net => exchange_fails net (listCrossmintWallets_request apiKey)).
Proof.
  assert (Hcreation : "WALLET_CREATION_ERROR"%string <> ""%string) by discriminate.
  assert (Hfetch : "WALLET_FETCH_ERROR"%string <> ""%string) by discriminate.
  assert (Hlist : "WALLET_LIST_ERROR"%string <> ""%string) by discriminate.
  unfold always_returns, result. split; [|split]; intros net.
  - destruct (valid_linkedUser_decide linkedUser) as [Hu|Hu];
      [destruct (valid_apiKey_decide apiKey) as [Hk|Hk]|].
    + rewrite (createCrossmintWallet_run _ agent linkedUser apiKey net Hu Hk). simpl.
      destruct (wallet_continuation_verdict "WALLET_CREATION_ERROR" net
                  (createCrossmintWallet_request linkedUser apiKey) Hcreation)
        as [Hfails Hworks].
      eexists; split; [reflexivity|]. split; [|split].
      * destruct (wallet_continuation_cases "WALLET_CREATION_ERROR"
                    (net (createCrossmintWallet_request linkedUser apiKey)))
          as [[e ->] | (w & a & ->)];
          [right; now apply error_object_result | now left].
      * intros [H | [H | H]]; [contradiction | contradiction | exact (Hfails H)].
      * intros H. apply Hworks. intros Hx. apply H. now right; right.
    + rewrite (createCrossmintWallet_run_apiKey _ agent linkedUser apiKey net Hu Hk).
      eexists; split; [reflexivity|]. split; [|split].
      * right. now apply error_object_result.
      * intros _. now apply error_object_result.
      * intros H. exfalso. apply H. now right; left.
    + rewrite (createCrossmintWallet_run_linkedUser _ agent linkedUser apiKey net Hu).
      eexists; split; [reflexivity|]. split; [|split].
      * right. now apply error_object_result.
      * intros _. now apply error_object_result.
      * intros H. exfalso. apply H. now left.
  - rewrite (getCrossmintWallet_run _ agent walletId apiKey net). simpl.
    destruct (wallet_continuation_verdict "WALLET_FETCH_ERROR" net
                (getCrossmintWallet_request walletId apiKey) Hfetch)
      as [Hfails Hworks].
    eexists; split; [reflexivity|]. split; [|split].
    + destruct (wallet_continuation_cases "WALLET_FETCH_ERROR"
                  (net (getCrossmintWallet_request walletId apiKey)))
        as [[e ->] | (w & a & ->)];
        [right; now apply error_object_result | now left].
    + exact Hfails.
    + exact Hworks.
  - rewrite (listCrossmintWallets_run _ agent apiKey net). simpl.
    destruct (list_continuation_verdict net (listCrossmintWallets_request apiKey))
      as [Hfails Hworks].
    eexists; split; [reflexivity|]. split; [|split].
    + destruct (list_continuation_cases (net (listCrossmintWallets_request apiKey)))
        as [[e ->] | (w & ->)];
        [right; now apply error_object_result | now left].
    + exact Hfails.
    + exact Hworks.
Qed.

(** C2.  When [linkedUser] starts with neither ["email:"] nor ["id:"],
    whatever the key, [createCrossmintWallet] returns the error result
    whose message is "linkedUser must start with 'email:' or 'id:' followed
    by the identifier", and [fetch] has not been called. *)
Theorem createCrossmintWallet_rejects_linkedUser
    (linkedUser apiKey : string) (net : Fetch) :
  startsWith linkedUser "email:" = false ->
  startsWith linkedUser "id:" = false ->
  result (createCrossmintWallet agent linkedUser apiKey) net =
    Normal [("status", str "error");
            ("message",
             str "linkedUser must start with 'email:' or 'id:' followed by the identifier");
            ("code", str "WALLET_CREATION_ERROR")]
  /\ requests (createCrossmintWallet agent linkedUser apiKey) net = [].
Proof.
  intros Hemail Hid.
  assert (Hu : ~ valid_linkedUser linkedUser) by now apply invalid_linkedUser_iff.
  unfold result, requests.
  rewrite (createCrossmintWallet_run_linkedUser _ agent linkedUser apiKey net Hu).
  split; reflexivity.
Qed.

(** C3, as the code has it.  When [linkedUser] starts with ["email:"] or
    ["id:"] and the key is empty or does not start with ["sk_"],
    [createCrossmintWallet] returns the error result whose message is
    "Invalid Crossmint API key format", and [fetch] has not been called. *)
Theorem createCrossmintWallet_rejects_apiKey
    (linkedUser apiKey : string) (net : Fetch) :
  startsWith linkedUser "email:" = true \/ startsWith linkedUser "id:" = true ->
  apiKey = "" \/ startsWith apiKey "sk_" = false ->
  result (createCrossmintWallet agent linkedUser apiKey) net =
    Normal [("status", str "error");
            ("message", str "Invalid Crossmint API key format");
            ("code", str "WALLET_CREATION_ERROR")]
  /\ requests (createCrossmintWallet agent linkedUser apiKey) net = [].
Proof.
  intros Hu Hkey.
  assert (Hk : ~ valid_apiKey apiKey) by now apply invalid_apiKey_iff.
  unfold result, requests.
  rewrite (createCrossmintWallet_run_apiKey _ agent linkedUser apiKey net Hu Hk).
  split; reflexivity.
Qed.

(** C4, as the code has it.  On a response with a non-success status
    whose body parses to a JSON value other than [null],
    [createCrossmintWallet] (its two input checks passed) returns an error
    result whose code is ["WALLET_CREATION_ERROR"] and whose message is
    - the [message] field of the body when that is a non-empty string,
    - "HTTP error! status: <code>" when that field is absent or falsy,
    - the string the field converts to when it is another truthy value. *)
Theorem createCrossmintWallet_http_error
    (linkedUser apiKey : string) (net : Fetch) (response : Response) (j : JSON) :
  valid_linkedUser linkedUser -> valid_apiKey apiKey ->
  answers net (createCrossmintWallet_request linkedUser apiKey) response j ->
  ok response = false ->
  j <> JNull ->
  let returns (text : string) :=
    result (createCrossmintWallet agent linkedUser apiKey) net =
      Normal [("status", str "error");
              ("message", str text);
              ("code", str "WALLET_CREATION_ERROR")] in
  (forall s, field j "message" = str s -> s <> "" -> returns s)
  /\ (truthy (field j "message") = false ->
      returns ("HTTP error! status: " ++ status_to_string (status response))%string)
  /\ (forall v s, field j "message" = Json v -> truthy (Json v) = true ->
                to_string v = Normal s -> returns s)
  /\ (exists text, returns text).
Proof.
  intros Hu Hk [Hnet Hbody] Hok Hj returns. subst returns. unfold result.
  rewrite (createCrossmintWallet_run _ agent linkedUser apiKey net Hu Hk), Hnet.
  cbn [fst wallet_continuation]. rewrite Hok, Hbody.
  set (http := ("HTTP error! status: " ++ status_to_string (status response))%string).
  assert (Hcont :
    match j with
    | JNull => error_object (TypeError (null_property_message "message"))
                 "WALLET_CREATION_ERROR"
    | _ => match new_Error (or_else (field j "message") (str http)) with
           | Normal e => error_object e "WALLET_CREATION_ERROR"
           | Throw e => error_object e "WALLET_CREATION_ERROR"
           end
    end =
    match new_Error (or_else (field j "message") (str http)) with
    | Normal e => error_object e "WALLET_CREATION_ERROR"
    | Throw e => error_object e "WALLET_CREATION_ERROR"
    end) by (destruct j; [contradiction | reflexivity ..]).
  rewrite Hcont. clear Hcont.
  repeat split.
  - intros s Hs Hne. rewrite Hs. unfold or_else.
    rewrite (truthy_str_nonempty s Hne). reflexivity.
  - intros Hfalsy. unfold or_else. rewrite Hfalsy. reflexivity.
  - intros v s Hv Htruthy Hs. rewrite Hv. unfold or_else. rewrite Htruthy.
    simpl. rewrite Hs. reflexivity.
  - destruct (new_Error _) as [e|e] eqn:He.
    + exists (message e).
      now rewrite (error_object_no_code e _ (new_Error_code _ e He)).
    + exists (message e).
      now rewrite (error_object_no_code e _ (new_Error_throws _ e He)).
Qed.

(** C5, as the code has it.  On a response with a success status whose
    body parses to a JSON value other than [null], [createCrossmintWallet]
    (its two input checks passed) and [getCrossmintWallet] return the
    success result whose [walletId] and [address] are those fields of the
    body, a field the body does not have coming out as [undefined]. *)
Theorem wallet_success_fields
    (linkedUser walletId apiKey : string) (net : Fetch) (response : Response) (j : JSON) :
  ok response = true ->
  j <> JNull ->
  (valid_linkedUser linkedUser -> valid_apiKey apiKey ->
   answers net (createCrossmintWallet_request linkedUser apiKey) response j ->
   result (createCrossmintWallet agent linkedUser apiKey) net =
     Normal [("status", str "success");
             ("walletId", field j "walletId");
             ("address", field j "address")])
  /\ (answers net (getCrossmintWallet_request walletId apiKey) response j ->
      result (getCrossmintWallet agent walletId apiKey) net =
        Normal [("status", str "success");
                ("walletId", field j "walletId");
                ("address", field j "address")]).
Proof.
  intros Hok Hj. unfold result. split.
  - intros Hu Hk [Hnet Hbody].
    rewrite (createCrossmintWallet_run _ agent linkedUser apiKey net Hu Hk), Hnet.
    cbn [fst wallet_continuation]. rewrite Hok, Hbody.
    destruct j; [contradiction | reflexivity ..].
  - intros [Hnet Hbody].
    rewrite (getCrossmintWallet_run _ agent walletId apiKey net), Hnet.
    cbn [fst wallet_continuation]. rewrite Hok, Hbody.
    destruct j; [contradiction | reflexivity ..].
Qed.

(** C6, as the code has it.  On a response with status 500 whose body is
    empty or does not parse, so that [response.json()] rejects with [e],
    [getCrossmintWallet] returns the error result whose message is the
    message of [e], and whose code is the code of [e] when that is truthy
    and ["WALLET_FETCH_ERROR"] otherwise. *)
Theorem getCrossmintWallet_unparsable_body
    (walletId apiKey : string) (net : Fetch) (response : Response) (e : ErrorObj) :
  net (getCrossmintWallet_request walletId apiKey) = Normal response ->
  status response = 500 ->
  body_json response = Throw e ->
  result (getCrossmintWallet agent walletId apiKey) net =
    Normal [("status", str "error");
            ("message", str (message e));
            ("code", or_else (code e) (str "WALLET_FETCH_ERROR"))].
Proof.
  intros Hnet Hstatus Hbody. unfold result.
  rewrite (getCrossmintWallet_run _ agent walletId apiKey net), Hnet.
  cbn [fst wallet_continuation]. rewrite Hbody.
  now destruct (ok response).
Qed.

(** C7, as the code has it.  On a response with a success status whose
    body parses to a JSON value other than [null], [listCrossmintWallets]
    returns the success result whose [wallets] is the [wallets] field of
    the body, unchanged. *)
Theorem listCrossmintWallets_success
    (apiKey : string) (net : Fetch) (response : Response) (j : JSON) :
  answers net (listCrossmintWallets_request apiKey) response j ->
  ok response = true ->
  j <> JNull ->
  result (listCrossmintWallets agent apiKey) net =
    Normal [("status", str "success"); ("wallets", field j "wallets")].
Proof.
  intros [Hnet Hbody] Hok Hj. unfold result.
  rewrite (listCrossmintWallets_run _ agent apiKey net), Hnet.
  cbn [fst list_continuation]. rewrite Hok, Hbody.
  destruct j; [contradiction | reflexivity ..].
Qed.

(** C8.  [getCrossmintWallet] checks nothing locally: for every
    [walletId] and every key it issues its one request, and what it
    returns is a function of what [fetch] gave for that request and of
    nothing else. *)
Theorem getCrossmintWallet_no_validation :
  (forall (walletId apiKey : string) (net : Fetch),
     requests (getCrossmintWallet agent walletId apiKey) net =
       [getCrossmintWallet_request walletId apiKey])
  /\ (exists decide : Completion Response -> JSObject,
       forall (walletId apiKey : string) (net : Fetch),
         result (getCrossmintWallet agent walletId apiKey) net =
           Normal (decide (net (getCrossmintWallet_request walletId apiKey)))).
Proof.
  split.
  - intros walletId apiKey net. unfold requests.
    now rewrite (getCrossmintWallet_run _ agent walletId apiKey net).
  - exists (wallet_continuation "WALLET_FETCH_ERROR").
    intros walletId apiKey net. unfold result.
    now rewrite (getCrossmintWallet_run _ agent walletId apiKey net).
Qed.

(** C9.  Every result of the three operations has status ["success"] or
    ["error"]; one with status ["success"] has no [message] and no [code]
    property, one with status ["error"] has no [walletId], [address] or
    [wallets] property. *)
Theorem results_have_two_shapes (linkedUser walletId apiKey : string) (net : Fetch) :
  (exists r, result (createCrossmintWallet agent linkedUser apiKey) net = Normal r
             /\ (success_shape r \/ error_shape r))
  /\ (exists r, result (getCrossmintWallet agent walletId apiKey) net = Normal r
                /\ (success_shape r \/ error_shape r))
  /\ (exists r, result (listCrossmintWallets agent apiKey) net = Normal r
                /\ (success_shape r \/ error_shape r)).
Proof.
  unfold result. repeat split.
  - destruct (valid_linkedUser_decide linkedUser) as [Hu|Hu];
      [destruct (valid_apiKey_decide apiKey) as [Hk|Hk]|].
    + rewrite (createCrossmintWallet_run _ agent linkedUser apiKey net Hu Hk).
      eexists; split; [reflexivity|].
      destruct (wallet_continuation_cases "WALLET_CREATION_ERROR"
                  (net (createCrossmintWallet_request linkedUser apiKey)))
        as [[e ->] | (w & a & ->)];
        [right; apply error_object_shape | left; repeat split].
    + rewrite (createCrossmintWallet_run_apiKey _ agent linkedUser apiKey net Hu Hk).
      eexists; split; [reflexivity|]. right; apply error_object_shape.
    + rewrite (createCrossmintWallet_run_linkedUser _ agent linkedUser apiKey net Hu).
      eexists; split; [reflexivity|]. right; apply error_object_shape.
  - rewrite (getCrossmintWallet_run _ agent walletId apiKey net).
    eexists; split; [reflexivity|].
    destruct (wallet_continuation_cases "WALLET_FETCH_ERROR"
                (net (getCrossmintWallet_request walletId apiKey)))
      as [[e ->] | (w & a & ->)];
      [right; apply error_object_shape | left; repeat split].
  - rewrite (listCrossmintWallets_run _ agent apiKey net).
    eexists; split; [reflexivity|].
    destruct (list_continuation_cases (net (listCrossmintWallets_request apiKey)))
      as [[e ->] | (w & ->)];
      [right; apply error_object_shape | left; repeat split].
Qed.

(** C10.  The one request of [getCrossmintWallet] has for URL the string
    "https://staging.crossmint.com/api/v1-alpha2/wallets/" followed by
    [walletId] as it is: the characters of [walletId] are the characters
    of the URL from position 52 on, so an empty [walletId] gives the URL
    that ends with the slash, and a [walletId] with ["/"], ["?"] or ["="]
    in it puts them in the URL unescaped. *)
Theorem getCrossmintWallet_url (apiKey : string) (net : Fetch) :
  (forall walletId : string,
     exists req,
       requests (getCrossmintWallet agent walletId apiKey) net = [req]
       /\ url req =
            ("https://staging.crossmint.com/api/v1-alpha2/wallets/" ++ walletId)%string
       /\ substring 52 (String.length walletId) (url req) = walletId)
  /\ map url (requests (getCrossmintWallet agent "" apiKey) net) =
       ["https://staging.crossmint.com/api/v1-alpha2/wallets/"]
  /\ map url (requests (getCrossmintWallet agent "w1/../w2?x=1" apiKey) net) =
       ["https://staging.crossmint.com/api/v1-alpha2/wallets/w1/../w2?x=1"].
Proof.
  unfold requests. repeat split.
  - intros walletId. rewrite (getCrossmintWallet_run _ agent walletId apiKey net).
    eexists; split; [reflexivity|]. split; [reflexivity|].
    exact (substring_append
             "https://staging.crossmint.com/api/v1-alpha2/wallets/" walletId).
  - now rewrite (getCrossmintWallet_run _ agent "" apiKey net).
  - now rewrite (getCrossmintWallet_run _ agent "w1/../w2?x=1" apiKey net).
Qed.

End Claims.

(** ** Runs on the concrete engine *)

Lemma operations_never_throw_witness :
  exchange_fails (unreachable (TypeError "fetch failed"))
    (getCrossmintWallet_request "w1" "sk_test")
  /\ exists r,
       result (getCrossmintWallet tt "w1" "sk_test") (unreachable (TypeError "fetch failed"))
         = Normal r
       /\ error_result r.
Proof.
  split; [exact I|].
  destruct (operations_never_throw unit tt "id:u1" "w1" "sk_test") as (_ & Hget & _).
  destruct (Hget (unreachable (TypeError "fetch failed"))) as (r & Hr & _ & Hfail & _).
  exists r. split; [exact Hr | apply Hfail; exact I].
Defined.

Lemma createCrossmintWallet_rejects_linkedUser_witness :
  startsWith "alice@example.com" "email:" = false
  /\ startsWith "alice@example.com" "id:" = false
  /\ result (createCrossmintWallet tt "alice@example.com" "sk_test") (always created_200) =
       Normal [("status", str "error");
               ("message",
                str "linkedUser must start with 'email:' or 'id:' followed by the identifier");
               ("code", str "WALLET_CREATION_ERROR")]
  /\ requests (createCrossmintWallet tt "alice@example.com" "sk_test") (always created_200) = [].
Proof.
  split; [reflexivity|]. split; [reflexivity|].
  apply (createCrossmintWallet_rejects_linkedUser unit tt
           "alice@example.com" "sk_test" (always created_200)); reflexivity.
Defined.

(** C3 as the specification words it fails: with a well-formed
    [linkedUser] and an empty key the message returned is not "Invalid API
    key format". *)
Lemma createCrossmintWallet_apiKey_message_differs :
  (startsWith "id:u1" "email:" = true \/ startsWith "id:u1" "id:" = true)
  /\ ~ exists r,
        result (createCrossmintWallet tt "id:u1" "") (always created_200) = Normal r
        /\ lookup "message" r = Some (str "Invalid API key format").
Proof.
  split; [right; reflexivity|].
  intros (r & Hr & Hmessage). vm_compute in Hr. injection Hr as <-.
  vm_compute in Hmessage. discriminate Hmessage.
Qed.

Lemma createCrossmintWallet_rejects_apiKey_witness :
  (startsWith "id:u1" "email:" = true \/ startsWith "id:u1" "id:" = true)
  /\ ("pk_live" = "" \/ startsWith "pk_live" "sk_" = false)
  /\ result (createCrossmintWallet tt "id:u1" "pk_live") (always created_200) =
       Normal [("status", str "error");
               ("message", str "Invalid Crossmint API key format");
               ("code", str "WALLET_CREATION_ERROR")]
  /\ requests (createCrossmintWallet tt "id:u1" "pk_live") (always created_200) = [].
Proof.
  split; [right; reflexivity|]. split; [right; reflexivity|].
  apply (createCrossmintWallet_rejects_apiKey unit tt "id:u1" "pk_live" (always created_200));
    right; reflexivity.
Defined.

(** C4 as the specification words it fails: [null] is a body that parses,
    it has no [message] field, and on a 400 the message returned is the
    engine's complaint about reading a property of [null], not
    "HTTP error! status: 400". *)
Lemma createCrossmintWallet_null_error_body :
  valid_linkedUser "email:a@b.com"
  /\ valid_apiKey "sk_test"
  /\ answers (always (null_body 400))
       (createCrossmintWallet_request "email:a@b.com" "sk_test") (null_body 400) JNull
  /\ ok (null_body 400) = false
  /\ truthy (field JNull "message") = false
  /\ result (createCrossmintWallet tt "email:a@b.com" "sk_test") (always (null_body 400)) =
       Normal [("status", str "error");
               ("message", str "Cannot read properties of null (reading 'message')");
               ("code", str "WALLET_CREATION_ERROR")]
  /\ ~ exists r,
        result (createCrossmintWallet tt "email:a@b.com" "sk_test") (always (null_body 400))
          = Normal r
        /\ lookup "message" r = Some (str "HTTP error! status: 400").
Proof.
  split; [left; reflexivity|]. split; [split; [discriminate | reflexivity]|].
  split; [split; reflexivity|]. do 3 (split; [reflexivity|]).
  intros (r & Hr & Hmessage). vm_compute in Hr. injection Hr as <-.
  vm_compute in Hmessage. discriminate Hmessage.
Qed.

Lemma createCrossmintWallet_http_error_witness :
  valid_linkedUser "email:a@b.com"
  /\ valid_apiKey "sk_test"
  /\ ok bad_request_400 = false
  /\ result (createCrossmintWallet tt "email:a@b.com" "sk_test") (always bad_request_400) =
       Normal [("status", str "error");
               ("message", str "bad request");
               ("code", str "WALLET_CREATION_ERROR")].
Proof.
  assert (Hu : valid_linkedUser "email:a@b.com") by (left; reflexivity).
  assert (Hk : valid_apiKey "sk_test") by (split; [discriminate | reflexivity]).
  split; [exact Hu|]. split; [exact Hk|]. split; [reflexivity|].
  refine (proj1 (createCrossmintWallet_http_error unit tt "email:a@b.com" "sk_test"
                   (always bad_request_400) bad_request_400
                   (JObj [("message", JStr "bad request")])
                   Hu Hk (conj eq_refl eq_refl) eq_refl _) "bad request" eq_refl _);
    discriminate.
Defined.

(** C5 as the specification words it fails: on a 200 whose body is the
    JSON text [null], neither operation returns a success result. *)
Lemma wallet_null_body_is_error :
  valid_linkedUser "email:a@b.com"
  /\ valid_apiKey "sk_test"
  /\ ok (null_body 200) = true
  /\ answers (always (null_body 200))
       (createCrossmintWallet_request "email:a@b.com" "sk_test") (null_body 200) JNull
  /\ result (createCrossmintWallet tt "email:a@b.com" "sk_test") (always (null_body 200)) =
       Normal [("status", str "error");
               ("message", str "Cannot read properties of null (reading 'walletId')");
               ("code", str "WALLET_CREATION_ERROR")]
  /\ result (getCrossmintWallet tt "w1" "sk_test") (always (null_body 200)) =
       Normal [("status", str "error");
               ("message", str "Cannot read properties of null (reading 'walletId')");
               ("code", str "WALLET_FETCH_ERROR")]
  /\ ~ exists r,
        result (createCrossmintWallet tt "email:a@b.com" "sk_test") (always (null_body 200))
          = Normal r
        /\ lookup "status" r = Some (str "success").
Proof.
  split; [left; reflexivity|]. split; [split; [discriminate | reflexivity]|].
  split; [reflexivity|]. split; [split; reflexivity|]. do 2 (split; [reflexivity|]).
  intros (r & Hr & Hstatus). vm_compute in Hr. injection Hr as <-.
  vm_compute in Hstatus. discriminate Hstatus.
Qed.

Lemma wallet_success_fields_witness :
  ok created_200 = true
  /\ result (createCrossmintWallet tt "email:a@b.com" "sk_test") (always created_200) =
       Normal [("status", str "success");
               ("walletId", str "w1");
               ("address", str "addr1")]
  /\ result (getCrossmintWallet tt "w1" "sk_test") (always created_200) =
       Normal [("status", str "success");
               ("walletId", str "w1");
               ("address", str "addr1")].
Proof.
  assert (Hu : valid_linkedUser "email:a@b.com") by (left; reflexivity).
  assert (Hk : valid_apiKey "sk_test") by (split; [discriminate | reflexivity]).
  assert (Hj : JObj [("walletId", JStr "w1"); ("address", JStr "addr1")] <> JNull)
    by discriminate.
  pose proof (wallet_success_fields unit tt "email:a@b.com" "w1" "sk_test"
                (always created_200) created_200 _ eq_refl Hj) as [Hcreate Hget].
  split; [reflexivity|]. split.
  - exact (Hcreate Hu Hk (conj eq_refl eq_refl)).
  - exact (Hget (conj eq_refl eq_refl)).
Defined.

(** C6 as the specification words it fails: on a 500 with an empty body
    the message returned is that of the parse failure, not
    "HTTP error! status: 500". *)
Lemma getCrossmintWallet_empty_500 :
  status (empty_body 500) = 500
  /\ result (getCrossmintWallet tt "w1" "sk_test") (always (empty_body 500)) =
       Normal [("status", str "error");
               ("message", str "Unexpected end of JSON input");
               ("code", str "WALLET_FETCH_ERROR")]
  /\ ~ exists r,
        result (getCrossmintWallet tt "w1" "sk_test") (always (empty_body 500)) = Normal r
        /\ lookup "message" r = Some (str "HTTP error! status: 500").
Proof.
  do 2 (split; [reflexivity|]).
  intros (r & Hr & Hmessage). vm_compute in Hr. injection Hr as <-.
  vm_compute in Hmessage. discriminate Hmessage.
Qed.

Lemma getCrossmintWallet_unparsable_body_witness :
  status (empty_body 500) = 500
  /\ result (getCrossmintWallet tt "w1" "sk_test") (always (empty_body 500)) =
       Normal [("status", str "error");
               ("message", str "Unexpected end of JSON input");
               ("code", str "WALLET_FETCH_ERROR")].
Proof.
  split; [reflexivity|].
  exact (getCrossmintWallet_unparsable_body unit tt "w1" "sk_test"
           (always (empty_body 500)) (empty_body 500)
           {| message := "Unexpected end of JSON input"; code := Undefined |}
           eq_refl eq_refl eq_refl).
Defined.

(** C7 as the specification words it fails: on a 200 whose body is the
    JSON text [null], [listCrossmintWallets] returns an error result. *)
Lemma listCrossmintWallets_null_body :
  ok (null_body 200) = true
  /\ answers (always (null_body 200)) (listCrossmintWallets_request "sk_test")
       (null_body 200) JNull
  /\ result (listCrossmintWallets tt "sk_test") (always (null_body 200)) =
       Normal [("status", str "error");
               ("message", str "Cannot read properties of null (reading 'wallets')");
               ("code", str "WALLET_LIST_ERROR")]
  /\ ~ exists r,
        result (listCrossmintWallets tt "sk_test") (always (null_body 200)) = Normal r
        /\ lookup "status" r = Some (str "success").
Proof.
  split; [reflexivity|]. split; [split; reflexivity|]. split; [reflexivity|].
  intros (r & Hr & Hstatus). vm_compute in Hr. injection Hr as <-.
  vm_compute in Hstatus. discriminate Hstatus.
Qed.

Lemma listCrossmintWallets_success_witness :
  ok listed_200 = true
  /\ result (listCrossmintWallets tt "sk_test") (always listed_200) =
       Normal [("status", str "success");
               ("wallets", Json (JArr [JStr "w1"; JStr "w2"]))].
Proof.
  split; [reflexivity|].
  refine (listCrossmintWallets_success unit tt "sk_test" (always listed_200) listed_200
            (JObj [("wallets", JArr [JStr "w1"; JStr "w2"])])
            (conj eq_refl eq_refl) eq_refl _).
  discriminate.
Defined.

(** ** Further properties: the operations from any log *)

Section FromAnyLog.
Context {E : Engine}.
Variable SolanaAgentKit : Type.
Variable agent : SolanaAgentKit.

Lemma startsWith_iff (s p : string) :
  startsWith s p = true <-> exists rest, s = (p ++ rest)%string.
Proof.
  unfold startsWith. revert p.
  induction s as [|c s IH]; intros [|d p]; simpl.
  - split; [exists ""%string; reflexivity | reflexivity].
  - split; [discriminate | intros [rest H]; discriminate].
  - split; [exists (String c s); reflexivity | reflexivity].
  - destruct (ascii_dec d c) as [->|Hne].
    + rewrite IH. split; intros [rest H]; exists rest; [now rewrite H | now injection H].
    + split; [discriminate | intros [rest H]; injection H; congruence].
Qed.

Lemma valid_linkedUser_iff (linkedUser : string) :
  valid_linkedUser linkedUser <-> prefixed_linkedUser linkedUser.
Proof.
  unfold valid_linkedUser, prefixed_linkedUser. now rewrite !startsWith_iff.
Qed.

Lemma valid_apiKey_iff (apiKey : string) :
  valid_apiKey apiKey <-> prefixed_apiKey apiKey.
Proof.
  unfold valid_apiKey, prefixed_apiKey. rewrite startsWith_iff. split.
  - now intros [_ H].
  - intros [secret ->]. split; [discriminate | now exists secret].
Qed.

Lemma createCrossmintWallet_from (linkedUser apiKey : string) (net : Fetch) (log : list Request) :
  valid_linkedUser linkedUser -> valid_apiKey apiKey ->
  createCrossmintWallet agent linkedUser apiKey net log =
    (Normal (wallet_continuation "WALLET_CREATION_ERROR"
               (net (createCrossmintWallet_request linkedUser apiKey))),
     log ++ [createCrossmintWallet_request linkedUser apiKey]).
Proof.
  intros Hu Hk.
  pose proof (wallet_block_run "WALLET_CREATION_ERROR") as Hblock.
  unfold createCrossmintWallet, createCrossmintWallet_try.
  rewrite (valid_linkedUser_check linkedUser Hu), (valid_apiKey_check apiKey Hk).
  rewrite !try_catch_skip, try_catch_fetch.
  destruct (net (createCrossmintWallet_request linkedUser apiKey)) as [response|e];
    [|reflexivity].
  apply (Hblock response net _ createCrossmintWallet_catch). reflexivity.
Qed.

Lemma createCrossmintWallet_from_invalid (linkedUser apiKey : string) (net : Fetch)
      (log : list Request) :
  ~ (valid_linkedUser linkedUser /\ valid_apiKey apiKey) ->
  exists text,
    createCrossmintWallet agent linkedUser apiKey net log =
      (Normal (error_literal text (str "WALLET_CREATION_ERROR")), log).
Proof.
  intros Hinvalid.
  destruct (valid_linkedUser_decide linkedUser) as [Hu|Hu];
    [destruct (valid_apiKey_decide apiKey) as [Hk|Hk]; [tauto|]|].
  - eexists. js_unfold.
    rewrite (valid_linkedUser_check linkedUser Hu), (invalid_apiKey_check apiKey Hk).
    reflexivity.
  - eexists. js_unfold. rewrite (invalid_linkedUser_check linkedUser Hu). reflexivity.
Qed.

Lemma getCrossmintWallet_from (walletId apiKey : string) (net : Fetch) (log : list Request) :
  getCrossmintWallet agent walletId apiKey net log =
    (Normal (wallet_continuation "WALLET_FETCH_ERROR"
               (net (getCrossmintWallet_request walletId apiKey))),
     log ++ [getCrossmintWallet_request walletId apiKey]).
Proof.
  pose proof (wallet_block_run "WALLET_FETCH_ERROR") as Hblock.
  unfold getCrossmintWallet, getCrossmintWallet_try.
  rewrite try_catch_fetch.
  destruct (net (getCrossmintWallet_request walletId apiKey)) as [response|e];
    [|reflexivity].
  apply (Hblock response net _ getCrossmintWallet_catch). reflexivity.
Qed.

Lemma listCrossmintWallets_from (apiKey : string) (net : Fetch) (log : list Request) :
  listCrossmintWallets agent apiKey net log =
    (Normal (list_continuation (net (listCrossmintWallets_request apiKey))),
     log ++ [listCrossmintWallets_request apiKey]).
Proof.
  pose proof list_block_run as Hblock.
  unfold listCrossmintWallets, listCrossmintWallets_try.
  rewrite try_catch_fetch.
  destruct (net (listCrossmintWallets_request apiKey)) as [response|e];
    [|reflexivity].
  apply (Hblock response net _ listCrossmintWallets_catch). reflexivity.
Qed.

End FromAnyLog.

(** ** Further properties: the closed forms by cases *)

Section ClosedForms.
Context {E : Engine}.

Lemma or_else_fallback_truthy (v : Value) (fallback : string) :
  fallback <> "" -> truthy (or_else v (str fallback)) = true.
Proof.
  intros Hne. unfold or_else. destruct (truthy v) eqn:Hv; [exact Hv|].
  now apply truthy_str_nonempty.
Qed.

Lemma error_object_literal (e : ErrorObj) (fallback : string) :
  error_object e fallback =
    error_literal (message e) (or_else (code e) (str fallback)).
Proof. reflexivity. Qed.

(** What [throw new Error(field || http)] leaves in the result. *)
Lemma http_error_cases (j : JSON) (http fallback : string) :
  let thrown :=
    match new_Error (or_else (field j "message") (str http)) with
    | Normal e => error_object e fallback
    | Throw e => error_object e fallback
    end in
  (forall s, field j "message" = str s -> s <> "" ->
             thrown = error_literal s (str fallback))
  /\ (truthy (field j "message") = false -> thrown = error_literal http (str fallback))
  /\ (forall v s, field j "message" = Json v -> truthy (Json v) = true ->
                to_string v = Normal s -> thrown = error_literal s (str fallback))
  /\ (exists text, thrown = error_literal text (str fallback)).
Proof.
  intros thrown. subst thrown. repeat split.
  - intros s Hs Hne. rewrite Hs. unfold or_else.
    rewrite (truthy_str_nonempty s Hne). reflexivity.
  - intros Hfalsy. unfold or_else. rewrite Hfalsy. reflexivity.
  - intros v s Hv Htruthy Hs. rewrite Hv. unfold or_else. rewrite Htruthy.
    simpl. rewrite Hs. reflexivity.
  - destruct (new_Error _) as [e|e] eqn:He; exists (message e).
    + now rewrite (error_object_no_code e _ (new_Error_code _ e He)).
    + now rewrite (error_object_no_code e _ (new_Error_throws _ e He)).
Qed.

Lemma wallet_continuation_http (fallback : string) (response : Response) (j : JSON) :
  ok response = false -> body_json response = Normal j -> j <> JNull ->
  wallet_continuation fallback (Normal response) =
    match new_Error (or_else (field j "message")
             (str ("HTTP error! status: " ++ status_to_string (status response))%string)) with
    | Normal e => error_object e fallback
    | Throw e => error_object e fallback
    end.
Proof.
  intros Hok Hbody Hj. simpl. rewrite Hok, Hbody.
  destruct j; [contradiction | reflexivity ..].
Qed.

Lemma list_continuation_http (response : Response) (j : JSON) :
  ok response = false -> body_json response = Normal j -> j <> JNull ->
  list_continuation (Normal response) =
    match new_Error (or_else (field j "message")
             (str ("HTTP error! status: " ++ status_to_string (status response))%string)) with
    | Normal e => error_object e "WALLET_LIST_ERROR"
    | Throw e => error_object e "WALLET_LIST_ERROR"
    end.
Proof.
  intros Hok Hbody Hj. simpl. rewrite Hok, Hbody.
  destruct j; [contradiction | reflexivity ..].
Qed.

Lemma wallet_continuation_success (fallback : string) (response : Response) (j : JSON) :
  ok response = true -> body_json response = Normal j -> j <> JNull ->
  wallet_continuation fallback (Normal response) =
    [("status", str "success");
     ("walletId", field j "walletId");
     ("address", field j "address")].
Proof.
  intros Hok Hbody Hj. simpl. rewrite Hok, Hbody.
  destruct j; [contradiction | reflexivity ..].
Qed.

Lemma list_continuation_success (response : Response) (j : JSON) :
  ok response = true -> body_json response = Normal j -> j <> JNull ->
  list_continuation (Normal response) =
    [("status", str "success"); ("wallets", field j "wallets")].
Proof.
  intros Hok Hbody Hj. simpl. rewrite Hok, Hbody.
  destruct j; [contradiction | reflexivity ..].
Qed.

(** A closed form is a success literal or an error literal whose code is
    truthy. *)
Lemma wallet_continuation_literal (fallback : string) (outcome : Completion Response) :
  fallback <> "" ->
  success_result (wallet_continuation fallback outcome)
  \/ exists text c,
       wallet_continuation fallback outcome = error_literal text c /\ truthy c = true.
Proof.
  intros Hne.
  destruct (wallet_continuation_cases fallback outcome) as [[e ->] | (w & a & ->)].
  - right. exists (message e), (or_else (code e) (str fallback)).
    split; [reflexivity | now apply or_else_fallback_truthy].
  - now left.
Qed.

Lemma list_continuation_literal (outcome : Completion Response) :
  success_result (list_continuation outcome)
  \/ exists text c,
       list_continuation outcome = error_literal text c /\ truthy c = true.
Proof.
  destruct (list_continuation_cases outcome) as [[e ->] | (w & ->)].
  - right. exists (message e), (or_else (code e) (str "WALLET_LIST_ERROR")).
    split; [reflexivity | now apply or_else_fallback_truthy].
  - now left.
Qed.

(** When the body has parsed, a failure has the fallback code. *)
Lemma wallet_continuation_parsed (fallback : string) (response : Response) (j : JSON) :
  body_json response = Normal j ->
  success_result (wallet_continuation fallback (Normal response))
  \/ exists text,
       wallet_continuation fallback (Normal response) = error_literal text (str fallback).
Proof.
  intros Hbody. destruct (ok response) eqn:Hok.
  - destruct j eqn:Hj;
      [ right; simpl; rewrite Hok, Hbody; eexists; reflexivity | left .. ];
      rewrite (wallet_continuation_success fallback response j Hok) by (subst; congruence);
      reflexivity.
  - right. destruct j eqn:Hj;
      [ simpl; rewrite Hok, Hbody; eexists; reflexivity | .. ];
      rewrite (wallet_continuation_http fallback response j Hok) by (subst; congruence);
      apply (http_error_cases j).
Qed.

Lemma list_continuation_parsed (response : Response) (j : JSON) :
  body_json response = Normal j ->
  success_result (list_continuation (Normal response))
  \/ exists text,
       list_continuation (Normal response) = error_literal text (str "WALLET_LIST_ERROR").
Proof.
  intros Hbody. destruct (ok response) eqn:Hok.
  - destruct j eqn:Hj;
      [ right; simpl; rewrite Hok, Hbody; eexists; reflexivity | left .. ];
      rewrite (list_continuation_success response j Hok) by (subst; congruence);
      reflexivity.
  - right. destruct j eqn:Hj;
      [ simpl; rewrite Hok, Hbody; eexists; reflexivity | .. ];
      rewrite (list_continuation_http response j Hok) by (subst; congruence);
      apply (http_error_cases j).
Qed.

End ClosedForms.

(** ** Further properties of the operations *)

Section Further.
Context {E : Engine}.
Variable SolanaAgentKit : Type.
Variable agent : SolanaAgentKit.

(** X1.  [createCrossmintWallet] issues its request exactly when
    [linkedUser] is ["email:"] or ["id:"] followed by anything, the empty
    string included, and the key is ["sk_"] followed by anything, the
    empty string included; in every other case it issues none.  Nothing
    after the prefix is looked at. *)
Theorem createCrossmintWallet_request_issued
    (linkedUser apiKey : string) (net : Fetch) :
  (prefixed_linkedUser linkedUser /\ prefixed_apiKey apiKey ->
   requests (createCrossmintWallet agent linkedUser apiKey) net =
     [createCrossmintWallet_request linkedUser apiKey])
  /\ (~ (prefixed_linkedUser linkedUser /\ prefixed_apiKey apiKey) ->
      requests (createCrossmintWallet agent linkedUser apiKey) net = []).
Proof.
  unfold requests, run. split.
  - intros [Hu Hk]. apply valid_linkedUser_iff in Hu. apply valid_apiKey_iff in Hk.
    now rewrite (createCrossmintWallet_from _ agent linkedUser apiKey net [] Hu Hk).
  - intros Hinvalid.
    destruct (createCrossmintWallet_from_invalid _ agent linkedUser apiKey net []) as [text ->].
    + now rewrite valid_linkedUser_iff, valid_apiKey_iff.
    + reflexivity.
Qed.

(** X2.  [listCrossmintWallets] checks nothing locally: for every key, the
    empty one included, it issues its one request, and what it returns is
    a function of what [fetch] gave for that request and of nothing
    else. *)
Theorem listCrossmintWallets_no_validation :
  (forall (apiKey : string) (net : Fetch),
     requests (listCrossmintWallets agent apiKey) net =
       [listCrossmintWallets_request apiKey])
  /\ (exists decide : Completion Response -> JSObject,
       forall (apiKey : string) (net : Fetch),
         result (listCrossmintWallets agent apiKey) net =
           Normal (decide (net (listCrossmintWallets_request apiKey)))).
Proof.
  split.
  - intros apiKey net. unfold requests, run.
    now rewrite (listCrossmintWallets_from _ agent apiKey net []).
  - exists list_continuation. intros apiKey net. unfold result, run.
    now rewrite (listCrossmintWallets_from _ agent apiKey net []).
Qed.

(** X3.  No operation retries or touches earlier requests: started from
    any log, each one leaves the log as it was and appends what it issues
    when started from the empty log, which is exactly one request for
    [getCrossmintWallet] and [listCrossmintWallets] and at most one for
    [createCrossmintWallet], whatever [fetch] answers. *)
Theorem operations_append_one_request
    (linkedUser walletId apiKey : string) (net : Fetch) (log : list Request) :
  (snd (createCrossmintWallet agent linkedUser apiKey net log) =
     log ++ requests (createCrossmintWallet agent linkedUser apiKey) net
   /\ length (requests (createCrossmintWallet agent linkedUser apiKey) net) <= 1)
  /\ snd (getCrossmintWallet agent walletId apiKey net log) =
       log ++ [getCrossmintWallet_request walletId apiKey]
  /\ snd (listCrossmintWallets agent apiKey net log) =
       log ++ [listCrossmintWallets_request apiKey].
Proof.
  unfold requests, run. repeat split.
  - destruct (valid_linkedUser_decide linkedUser) as [Hu|Hu];
      [destruct (valid_apiKey_decide apiKey) as [Hk|Hk]|].
    + now rewrite !(createCrossmintWallet_from _ agent linkedUser apiKey net _ Hu Hk).
    + destruct (createCrossmintWallet_from_invalid _ agent linkedUser apiKey net log)
        as [text ->]; [tauto|].
      destruct (createCrossmintWallet_from_invalid _ agent linkedUser apiKey net [])
        as [text' ->]; [tauto|].
      simpl. now rewrite app_nil_r.
    + destruct (createCrossmintWallet_from_invalid _ agent linkedUser apiKey net log)
        as [text ->]; [tauto|].
      destruct (createCrossmintWallet_from_invalid _ agent linkedUser apiKey net [])
        as [text' ->]; [tauto|].
      simpl. now rewrite app_nil_r.
  - destruct (valid_linkedUser_decide linkedUser) as [Hu|Hu];
      [destruct (valid_apiKey_decide apiKey) as [Hk|Hk]|].
    + rewrite (createCrossmintWallet_from _ agent linkedUser apiKey net _ Hu Hk).
      simpl. lia.
    + destruct (createCrossmintWallet_from_invalid _ agent linkedUser apiKey net [])
        as [text' ->]; [tauto|]. simpl. lia.
    + destruct (createCrossmintWallet_from_invalid _ agent linkedUser apiKey net [])
        as [text' ->]; [tauto|]. simpl. lia.
  - now rewrite (getCrossmintWallet_from _ agent walletId apiKey net log).
  - now rewrite (listCrossmintWallets_from _ agent apiKey net log).
Qed.

(** X5.  When [fetch] itself rejects with [e], each operation returns the
    error result made of the message of [e] and of its code, the
    operation's own code standing in when [e] has none or a falsy one; a
    code such as ["ECONNREFUSED"] set by the transport comes through
    unchanged. *)
Theorem fetch_rejection_reported
    (linkedUser walletId apiKey : string) (net : Fetch) (e : ErrorObj) :
  (valid_linkedUser linkedUser -> valid_apiKey apiKey ->
   net (createCrossmintWallet_request linkedUser apiKey) = Throw e ->
   result (createCrossmintWallet agent linkedUser apiKey) net =
     Normal (error_literal (message e) (or_else (code e) (str "WALLET_CREATION_ERROR"))))
  /\ (net (getCrossmintWallet_request walletId apiKey) = Throw e ->
      result (getCrossmintWallet agent walletId apiKey) net =
        Normal (error_literal (message e) (or_else (code e) (str "WALLET_FETCH_ERROR"))))
  /\ (net (listCrossmintWallets_request apiKey) = Throw e ->
      result (listCrossmintWallets agent apiKey) net =
        Normal (error_literal (message e) (or_else (code e) (str "WALLET_LIST_ERROR")))).
Proof.
  unfold result, run. repeat split.
  - intros Hu Hk Hnet.
    now rewrite (createCrossmintWallet_from _ agent linkedUser apiKey net [] Hu Hk), Hnet.
  - intros Hnet. now rewrite (getCrossmintWallet_from _ agent walletId apiKey net []), Hnet.
  - intros Hnet. now rewrite (listCrossmintWallets_from _ agent apiKey net []), Hnet.
Qed.

(** X6.  An error result is always the three properties [status],
    [message], [code] in that order, its message a string and its code
    truthy: the code is never [undefined], [null], empty, zero or
    [false], whatever the thrown error carried. *)
Theorem error_results_have_truthy_code
    (linkedUser walletId apiKey : string) (net : Fetch) :
  let well_formed (r : JSObject) :=
    success_result r \/ exists text c, r = error_literal text c /\ truthy c = true in
  (exists r, result (createCrossmintWallet agent linkedUser apiKey) net = Normal r
             /\ well_formed r)
  /\ (exists r, result (getCrossmintWallet agent walletId apiKey) net = Normal r
                /\ well_formed r)
  /\ (exists r, result (listCrossmintWallets agent apiKey) net = Normal r
                /\ well_formed r).
Proof.
  intros well_formed. subst well_formed. unfold result, run. repeat split.
  - destruct (valid_linkedUser_decide linkedUser) as [Hu|Hu];
      [destruct (valid_apiKey_decide apiKey) as [Hk|Hk]|].
    + rewrite (createCrossmintWallet_from _ agent linkedUser apiKey net [] Hu Hk).
      eexists; split; [reflexivity|].
      apply wallet_continuation_literal. discriminate.
    + destruct (createCrossmintWallet_from_invalid _ agent linkedUser apiKey net [])
        as [text ->]; [tauto|].
      eexists; split; [reflexivity|]. right. now exists text, (str "WALLET_CREATION_ERROR").
    + destruct (createCrossmintWallet_from_invalid _ agent linkedUser apiKey net [])
        as [text ->]; [tauto|].
      eexists; split; [reflexivity|]. right. now exists text, (str "WALLET_CREATION_ERROR").
  - rewrite (getCrossmintWallet_from _ agent walletId apiKey net []).
    eexists; split; [reflexivity|]. apply wallet_continuation_literal. discriminate.
  - rewrite (listCrossmintWallets_from _ agent apiKey net []).
    eexists; split; [reflexivity|]. apply list_continuation_literal.
Qed.

(** X7.  Only a rejection of [fetch] or of [response.json()] can bring a
    code of its own: whenever [fetch] gave a response whose body parsed,
    the result is a success or an error whose code is the operation's own
    ([WALLET_CREATION_ERROR], [WALLET_FETCH_ERROR], [WALLET_LIST_ERROR]),
    whatever the body holds, a [code] property included. *)
Theorem parsed_body_gives_fallback_code
    (linkedUser walletId apiKey : string) (net : Fetch) (response : Response) (j : JSON) :
  (answers net (createCrossmintWallet_request linkedUser apiKey) response j ->
   exists r, result (createCrossmintWallet agent linkedUser apiKey) net = Normal r
             /\ (success_result r
                 \/ exists text, r = error_literal text (str "WALLET_CREATION_ERROR")))
  /\ (answers net (getCrossmintWallet_request walletId apiKey) response j ->
      exists r, result (getCrossmintWallet agent walletId apiKey) net = Normal r
                /\ (success_result r
                    \/ exists text, r = error_literal text (str "WALLET_FETCH_ERROR")))
  /\ (answers net (listCrossmintWallets_request apiKey) response j ->
      exists r, result (listCrossmintWallets agent apiKey) net = Normal r
                /\ (success_result r
                    \/ exists text, r = error_literal text (str "WALLET_LIST_ERROR"))).
Proof.
  unfold result, run. repeat split; intros [Hnet Hbody].
  - destruct (valid_linkedUser_decide linkedUser) as [Hu|Hu];
      [destruct (valid_apiKey_decide apiKey) as [Hk|Hk]|].
    + rewrite (createCrossmintWallet_from _ agent linkedUser apiKey net [] Hu Hk), Hnet.
      eexists; split; [reflexivity|].
      exact (wallet_continuation_parsed _ response j Hbody).
    + destruct (createCrossmintWallet_from_invalid _ agent linkedUser apiKey net [])
        as [text ->]; [tauto|].
      eexists; split; [reflexivity|]. right. now exists text.
    + destruct (createCrossmintWallet_from_invalid _ agent linkedUser apiKey net [])
        as [text ->]; [tauto|].
      eexists; split; [reflexivity|]. right. now exists text.
  - rewrite (getCrossmintWallet_from _ agent walletId apiKey net []), Hnet.
    eexists; split; [reflexivity|].
    exact (wallet_continuation_parsed _ response j Hbody).
  - rewrite (listCrossmintWallets_from _ agent apiKey net []), Hnet.
    eexists; split; [reflexivity|].
    exact (list_continuation_parsed response j Hbody).
Qed.

(** X8.  A body that does not parse is reported as such at every status,
    the success ones included (a 204 with no content, say): when
    [response.json()] rejects with [e], each operation returns the error
    result made of the message of [e] and of its code or the operation's
    own, and the status code appears nowhere in it. *)
Theorem unparsable_body_reported
    (linkedUser walletId apiKey : string) (net : Fetch) (response : Response) (e : ErrorObj) :
  body_json response = Throw e ->
  (valid_linkedUser linkedUser -> valid_apiKey apiKey ->
   net (createCrossmintWallet_request linkedUser apiKey) = Normal response ->
   result (createCrossmintWallet agent linkedUser apiKey) net =
     Normal (error_literal (message e) (or_else (code e) (str "WALLET_CREATION_ERROR"))))
  /\ (net (getCrossmintWallet_request walletId apiKey) = Normal response ->
      result (getCrossmintWallet agent walletId apiKey) net =
        Normal (error_literal (message e) (or_else (code e) (str "WALLET_FETCH_ERROR"))))
  /\ (net (listCrossmintWallets_request apiKey) = Normal response ->
      result (listCrossmintWallets agent apiKey) net =
        Normal (error_literal (message e) (or_else (code e) (str "WALLET_LIST_ERROR")))).
Proof.
  intros Hbody. unfold result, run. repeat split.
  - intros Hu Hk Hnet.
    rewrite (createCrossmintWallet_from _ agent linkedUser apiKey net [] Hu Hk), Hnet.
    simpl. rewrite Hbody. now destruct (ok response).
  - intros Hnet. rewrite (getCrossmintWallet_from _ agent walletId apiKey net []), Hnet.
    simpl. rewrite Hbody. now destruct (ok response).
  - intros Hnet. rewrite (listCrossmintWallets_from _ agent apiKey net []), Hnet.
    simpl. rewrite Hbody. now destruct (ok response).
Qed.

(** X9.  A body that is the JSON text [null] makes every operation return
    an error at every status: the message is the engine's complaint about
    reading a property of [null] (the first property the code reads,
    [message] on a failure status, [walletId] or [wallets] on a success
    status) and the code is the operation's own. *)
Theorem null_body_reported
    (linkedUser walletId apiKey : string) (net : Fetch) (response : Response) :
  (valid_linkedUser linkedUser -> valid_apiKey apiKey ->
   answers net (createCrossmintWallet_request linkedUser apiKey) response JNull ->
   result (createCrossmintWallet agent linkedUser apiKey) net =
     Normal (error_literal
               (null_property_message (if ok response then "walletId" else "message"))
               (str "WALLET_CREATION_ERROR")))
  /\ (answers net (getCrossmintWallet_request walletId apiKey) response JNull ->
      result (getCrossmintWallet agent walletId apiKey) net =
        Normal (error_literal
                  (null_property_message (if ok response then "walletId" else "message"))
                  (str "WALLET_FETCH_ERROR")))
  /\ (answers net (listCrossmintWallets_request apiKey) response JNull ->
      result (listCrossmintWallets agent apiKey) net =
        Normal (error_literal
                  (null_property_message (if ok response then "wallets" else "message"))
                  (str "WALLET_LIST_ERROR"))).
Proof.
  unfold result, run. repeat split.
  - intros Hu Hk [Hnet Hbody].
    rewrite (createCrossmintWallet_from _ agent linkedUser apiKey net [] Hu Hk), Hnet.
    simpl. rewrite Hbody. now destruct (ok response).
  - intros [Hnet Hbody].
    rewrite (getCrossmintWallet_from _ agent walletId apiKey net []), Hnet.
    simpl. rewrite Hbody. now destruct (ok response).
  - intros [Hnet Hbody].
    rewrite (listCrossmintWallets_from _ agent apiKey net []), Hnet.
    simpl. rewrite Hbody. now destruct (ok response).
Qed.

(** X10.  On a response with a non-success status whose body parses to a
    JSON value other than [null], [getCrossmintWallet] returns an error
    result whose code is ["WALLET_FETCH_ERROR"] and whose message is the
    [message] field of the body when that is a non-empty string,
    "HTTP error! status: <code>" when that field is absent or falsy (the
    empty string included), and the string the field converts to when it
    is another truthy value. *)
Theorem getCrossmintWallet_http_error
    (walletId apiKey : string) (net : Fetch) (response : Response) (j : JSON) :
  answers net (getCrossmintWallet_request walletId apiKey) response j ->
  ok response = false ->
  j <> JNull ->
  let returns (text : string) :=
    result (getCrossmintWallet agent walletId apiKey) net =
      Normal (error_literal text (str "WALLET_FETCH_ERROR")) in
  (forall s, field j "message" = str s -> s <> "" -> returns s)
  /\ (truthy (field j "message") = false ->
      returns ("HTTP error! status: " ++ status_to_string (status response))%string)
  /\ (forall v s, field j "message" = Json v -> truthy (Json v) = true ->
                to_string v = Normal s -> returns s)
  /\ (exists text, returns text).
Proof.
  intros [Hnet Hbody] Hok Hj returns. subst returns. unfold result, run.
  rewrite (getCrossmintWallet_from _ agent walletId apiKey net []), Hnet.
  cbn [fst]. rewrite (wallet_continuation_http _ response j Hok Hbody Hj).
  destruct (http_error_cases j
              ("HTTP error! status: " ++ status_to_string (status response))%string
              "WALLET_FETCH_ERROR") as (H1 & H2 & H3 & [text H4]).
  repeat split.
  - intros s Hs Hne. now rewrite (H1 s Hs Hne).
  - intros Hfalsy. now rewrite (H2 Hfalsy).
  - intros v s Hv Ht Hs. now rewrite (H3 v s Hv Ht Hs).
  - exists text. now rewrite H4.
Qed.

(** X11.  The same for [listCrossmintWallets], with code
    ["WALLET_LIST_ERROR"]. *)
Theorem listCrossmintWallets_http_error
    (apiKey : string) (net : Fetch) (response : Response) (j : JSON) :
  answers net (listCrossmintWallets_request apiKey) response j ->
  ok response = false ->
  j <> JNull ->
  let returns (text : string) :=
    result (listCrossmintWallets agent apiKey) net =
      Normal (error_literal text (str "WALLET_LIST_ERROR")) in
  (forall s, field j "message" = str s -> s <> "" -> returns s)
  /\ (truthy (field j "message") = false ->
      returns ("HTTP error! status: " ++ status_to_string (status response))%string)
  /\ (forall v s, field j "message" = Json v -> truthy (Json v) = true ->
                to_string v = Normal s -> returns s)
  /\ (exists text, returns text).
Proof.
  intros [Hnet Hbody] Hok Hj returns. subst returns. unfold result, run.
  rewrite (listCrossmintWallets_from _ agent apiKey net []), Hnet.
  cbn [fst]. rewrite (list_continuation_http response j Hok Hbody Hj).
  destruct (http_error_cases j
              ("HTTP error! status: " ++ status_to_string (status response))%string
              "WALLET_LIST_ERROR") as (H1 & H2 & H3 & [text H4]).
  repeat split.
  - intros s Hs Hne. now rewrite (H1 s Hs Hne).
  - intros Hfalsy. now rewrite (H2 Hfalsy).
  - intros v s Hv Ht Hs. now rewrite (H3 v s Hv Ht Hs).
  - exists text. now rewrite H4.
Qed.

(** X12.  The operations succeed in one way only: a success result comes
    back exactly when [fetch] gave a response with a success status whose
    body parsed to a JSON value other than [null] (for
    [createCrossmintWallet], with arguments that passed its two checks). *)
Theorem success_exactly_when
    (linkedUser walletId apiKey : string) (net : Fetch) :
  let succeeds (op : M JSObject) := exists r, result op net = Normal r /\ success_result r in
  let good (req : Request) :=
    exists response j, answers net req response j /\ ok response = true /\ j <> JNull in
  (succeeds (createCrossmintWallet agent linkedUser apiKey) <->
     valid_linkedUser linkedUser /\ valid_apiKey apiKey
     /\ good (createCrossmintWallet_request linkedUser apiKey))
  /\ (succeeds (getCrossmintWallet agent walletId apiKey) <->
        good (getCrossmintWallet_request walletId apiKey))
  /\ (succeeds (listCrossmintWallets agent apiKey) <->
        good (listCrossmintWallets_request apiKey)).
Proof.
  intros succeeds good. subst succeeds good. unfold result, run, answers.
  assert (Hwallet : forall fallback outcome,
    success_result (wallet_continuation fallback outcome) ->
    exists response j, outcome = Normal response /\ body_json response = Normal j
                       /\ ok response = true /\ j <> JNull).
  { intros fallback outcome. unfold success_result.
    destruct outcome as [response|e]; [|discriminate]. simpl.
    destruct (ok response) eqn:Hok.
    - destruct (body_json response) as [j|e] eqn:Hbody; [|discriminate].
      destruct j; try discriminate; intros _; do 2 eexists;
        (split; [reflexivity|]); (split; [exact Hbody|]); (split; [exact Hok | discriminate]).
    - destruct (body_json response) as [j|e]; [|discriminate].
      destruct j; try discriminate; destruct (new_Error _); discriminate. }
  assert (Hlist : forall outcome,
    success_result (list_continuation outcome) ->
    exists response j, outcome = Normal response /\ body_json response = Normal j
                       /\ ok response = true /\ j <> JNull).
  { intros outcome. unfold success_result.
    destruct outcome as [response|e]; [|discriminate]. simpl.
    destruct (ok response) eqn:Hok.
    - destruct (body_json response) as [j|e] eqn:Hbody; [|discriminate].
      destruct j; try discriminate; intros _; do 2 eexists;
        (split; [reflexivity|]); (split; [exact Hbody|]); (split; [exact Hok | discriminate]).
    - destruct (body_json response) as [j|e]; [|discriminate].
      destruct j; try discriminate; destruct (new_Error _); discriminate. }
  split; [split | split; split].
  - intros (r & Hr & Hs).
    destruct (valid_linkedUser_decide linkedUser) as [Hu|Hu];
      [destruct (valid_apiKey_decide apiKey) as [Hk|Hk]|].
    + rewrite (createCrossmintWallet_from _ agent linkedUser apiKey net [] Hu Hk) in Hr.
      injection Hr as <-.
      destruct (Hwallet _ _ Hs) as (response & j & Hnet & Hbody & Hok & Hj).
      split; [exact Hu|]. split; [exact Hk|]. now exists response, j.
    + destruct (createCrossmintWallet_from_invalid _ agent linkedUser apiKey net [])
        as [text Hrun]; [tauto|].
      rewrite Hrun in Hr. injection Hr as <-. discriminate Hs.
    + destruct (createCrossmintWallet_from_invalid _ agent linkedUser apiKey net [])
        as [text Hrun]; [tauto|].
      rewrite Hrun in Hr. injection Hr as <-. discriminate Hs.
  - intros (Hu & Hk & response & j & [Hnet Hbody] & Hok & Hj).
    rewrite (createCrossmintWallet_from _ agent linkedUser apiKey net [] Hu Hk), Hnet.
    eexists; split; [reflexivity|].
    now rewrite (wallet_continuation_success _ response j Hok Hbody Hj).
  - intros (r & Hr & Hs).
    rewrite (getCrossmintWallet_from _ agent walletId apiKey net []) in Hr.
    injection Hr as <-.
    destruct (Hwallet _ _ Hs) as (response & j & Hnet & Hbody & Hok & Hj).
    now exists response, j.
  - intros (response & j & [Hnet Hbody] & Hok & Hj).
    rewrite (getCrossmintWallet_from _ agent walletId apiKey net []), Hnet.
    eexists; split; [reflexivity|].
    now rewrite (wallet_continuation_success _ response j Hok Hbody Hj).
  - intros (r & Hr & Hs).
    rewrite (listCrossmintWallets_from _ agent apiKey net []) in Hr.
    injection Hr as <-.
    destruct (Hlist _ Hs) as (response & j & Hnet & Hbody & Hok & Hj).
    now exists response, j.
  - intros (response & j & [Hnet Hbody] & Hok & Hj).
    rewrite (listCrossmintWallets_from _ agent apiKey net []), Hnet.
    eexists; split; [reflexivity|].
    now rewrite (list_continuation_success response j Hok Hbody Hj).
Qed.

(** X13.  A success result promises no wallet.  On a success status, a
    body that parsed to a boolean, a number, a string or an array is
    accepted without complaint: [createCrossmintWallet] and
    [getCrossmintWallet] return a success whose [walletId] and [address]
    are both [undefined], and [listCrossmintWallets] a success whose
    [wallets] is [undefined]. *)
Theorem success_without_fields
    (linkedUser walletId apiKey : string) (net : Fetch) (response : Response) (j : JSON) :
  ok response = true ->
  without_fields j ->
  (valid_linkedUser linkedUser -> valid_apiKey apiKey ->
   answers net (createCrossmintWallet_request linkedUser apiKey) response j ->
   result (createCrossmintWallet agent linkedUser apiKey) net =
     Normal [("status", str "success"); ("walletId", Undefined); ("address", Undefined)])
  /\ (answers net (getCrossmintWallet_request walletId apiKey) response j ->
      result (getCrossmintWallet agent walletId apiKey) net =
        Normal [("status", str "success"); ("walletId", Undefined); ("address", Undefined)])
  /\ (answers net (listCrossmintWallets_request apiKey) response j ->
      result (listCrossmintWallets agent apiKey) net =
        Normal [("status", str "success"); ("wallets", Undefined)]).
Proof.
  intros Hok Hshape. unfold result, run.
  assert (Hj : j <> JNull) by (intros ->; exact Hshape).
  split; [|split].
  - intros Hu Hk [Hnet Hbody].
    rewrite (createCrossmintWallet_from _ agent linkedUser apiKey net [] Hu Hk), Hnet.
    cbn [fst]. rewrite (wallet_continuation_success _ response j Hok Hbody Hj).
    destruct j; solve [reflexivity | contradiction].
  - intros [Hnet Hbody].
    rewrite (getCrossmintWallet_from _ agent walletId apiKey net []), Hnet.
    cbn [fst]. rewrite (wallet_continuation_success _ response j Hok Hbody Hj).
    destruct j; solve [reflexivity | contradiction].
  - intros [Hnet Hbody].
    rewrite (listCrossmintWallets_from _ agent apiKey net []), Hnet.
    cbn [fst]. rewrite (list_continuation_success response j Hok Hbody Hj).
    destruct j; solve [reflexivity | contradiction].
Qed.

(** X14.  Whatever the arguments and the network, every request an
    operation hands to [fetch] carries the caller's key unchanged in the
    [X-API-KEY] header and the JSON content type, and nothing else in its
    headers; [createCrossmintWallet] posts the wallet type
    ["solana-mpc-wallet"] with [linkedUser] unchanged, the other two send
    a GET without a body. *)
Theorem requests_carry_the_key
    (linkedUser walletId apiKey : string) (net : Fetch) :
  let keyed (req : Request) :=
    headers req = [("X-API-KEY", apiKey); ("Content-Type", "application/json")] in
  Forall (fun req =>
            keyed req /\ method req = "POST"
            /\ body req = Json (JObj [("type", JStr "solana-mpc-wallet");
                                      ("linkedUser", JStr linkedUser)]))
         (requests (createCrossmintWallet agent linkedUser apiKey) net)
  /\ Forall (fun req => keyed req /\ method req = "GET" /\ body req = Undefined)
        (requests (getCrossmintWallet agent walletId apiKey) net)
  /\ Forall (fun req => keyed req /\ method req = "GET" /\ body req = Undefined)
        (requests (listCrossmintWallets agent apiKey) net).
Proof.
  intros keyed. subst keyed. unfold requests, run. split; [|split].
  - destruct (valid_linkedUser_decide linkedUser) as [Hu|Hu];
      [destruct (valid_apiKey_decide apiKey) as [Hk|Hk]|].
    + rewrite (createCrossmintWallet_from _ agent linkedUser apiKey net [] Hu Hk).
      repeat constructor.
    + destruct (createCrossmintWallet_from_invalid _ agent linkedUser apiKey net [])
        as [text ->]; [tauto|]. constructor.
    + destruct (createCrossmintWallet_from_invalid _ agent linkedUser apiKey net [])
        as [text ->]; [tauto|]. constructor.
  - rewrite (getCrossmintWallet_from _ agent walletId apiKey net []). repeat constructor.
  - rewrite (listCrossmintWallets_from _ agent apiKey net []). repeat constructor.
Qed.

(** X15.  The synthesized message names the status without loss: when a
    non-success response has a body other than [null] with no truthy
    [message], the message [getCrossmintWallet] returns is
    "HTTP error! status: " followed by decimal digits that read back as
    the status code, so two such responses give the same message only
    when their status codes are the same. *)
Theorem http_error_message_names_status
    (walletId apiKey : string) (net : Fetch) (response : Response) (j : JSON) :
  answers net (getCrossmintWallet_request walletId apiKey) response j ->
  ok response = false ->
  j <> JNull ->
  truthy (field j "message") = false ->
  exists digits : string,
    result (getCrossmintWallet agent walletId apiKey) net =
      Normal (error_literal ("HTTP error! status: " ++ digits)%string
                (str "WALLET_FETCH_ERROR"))
    /\ option_map Nat.of_uint (NilEmpty.uint_of_string digits) = Some (status response).
Proof.
  intros [Hnet Hbody] Hok Hj Hfalsy.
  exists (status_to_string (status response)). split.
  - unfold result, run.
    rewrite (getCrossmintWallet_from _ agent walletId apiKey net []), Hnet.
    cbn [fst]. rewrite (wallet_continuation_http _ response j Hok Hbody Hj).
    destruct (http_error_cases j
                ("HTTP error! status: " ++ status_to_string (status response))%string
                "WALLET_FETCH_ERROR") as (_ & H & _).
    now rewrite (H Hfalsy).
  - unfold status_to_string. rewrite NilEmpty.usu. simpl.
    now rewrite DecimalNat.Unsigned.of_to.
Qed.

End Further.

(** ** Runs of the further properties on the concrete engine *)

Lemma createCrossmintWallet_request_issued_witness :
  (prefixed_linkedUser "email:" /\ prefixed_apiKey "sk_")
  /\ requests (createCrossmintWallet tt "email:" "sk_") (always created_200) =
       [createCrossmintWallet_request "email:" "sk_"].
Proof.
  assert (H : prefixed_linkedUser "email:" /\ prefixed_apiKey "sk_").
  { split; [left|]; exists ""%string; reflexivity. }
  split; [exact H|].
  exact (proj1 (createCrossmintWallet_request_issued unit tt "email:" "sk_"
                  (always created_200)) H).
Defined.

Lemma fetch_rejection_reported_witness :
  unreachable refused (getCrossmintWallet_request "w1" "sk_test") = Throw refused
  /\ result (getCrossmintWallet tt "w1" "sk_test") (unreachable refused) =
       Normal (error_literal "fetch failed" (str "ECONNREFUSED")).
Proof.
  split; [reflexivity|].
  exact (proj1 (proj2 (fetch_rejection_reported unit tt "id:u1" "w1" "sk_test"
                         (unreachable refused) refused)) eq_refl).
Defined.

Lemma parsed_body_gives_fallback_code_witness :
  answers (always forbidden_403) (listCrossmintWallets_request "sk_test") forbidden_403
    (JObj [("message", JStr "forbidden"); ("code", JStr "E_FORBIDDEN")])
  /\ exists r,
       result (listCrossmintWallets tt "sk_test") (always forbidden_403) = Normal r
       /\ (success_result r \/ exists text, r = error_literal text (str "WALLET_LIST_ERROR")).
Proof.
  assert (H : answers (always forbidden_403) (listCrossmintWallets_request "sk_test")
                forbidden_403
                (JObj [("message", JStr "forbidden"); ("code", JStr "E_FORBIDDEN")]))
    by (split; reflexivity).
  split; [exact H|].
  exact (proj2 (proj2 (parsed_body_gives_fallback_code unit tt "id:u1" "w1" "sk_test"
                         (always forbidden_403) forbidden_403 _)) H).
Defined.

Lemma unparsable_body_reported_witness :
  ok (empty_body 204) = true
  /\ result (listCrossmintWallets tt "sk_test") (always (empty_body 204)) =
       Normal (error_literal "Unexpected end of JSON input" (str "WALLET_LIST_ERROR")).
Proof.
  split; [reflexivity|].
  exact (proj2 (proj2 (unparsable_body_reported unit tt "id:u1" "w1" "sk_test"
                         (always (empty_body 204)) (empty_body 204)
                         {| message := "Unexpected end of JSON input"; code := Undefined |}
                         eq_refl)) eq_refl).
Defined.

Lemma null_body_reported_witness :
  answers (always (null_body 503)) (getCrossmintWallet_request "w1" "sk_test")
    (null_body 503) JNull
  /\ result (getCrossmintWallet tt "w1" "sk_test") (always (null_body 503)) =
       Normal (error_literal "Cannot read properties of null (reading 'message')"
                 (str "WALLET_FETCH_ERROR")).
Proof.
  split; [split; reflexivity|].
  exact (proj1 (proj2 (null_body_reported unit tt "id:u1" "w1" "sk_test"
                         (always (null_body 503)) (null_body 503)))
           (conj eq_refl eq_refl)).
Defined.

Lemma getCrossmintWallet_http_error_witness :
  ok forbidden_403 = false
  /\ result (getCrossmintWallet tt "w1" "sk_test") (always forbidden_403) =
       Normal (error_literal "forbidden" (str "WALLET_FETCH_ERROR")).
Proof.
  split; [reflexivity|].
  refine (proj1 (getCrossmintWallet_http_error unit tt "w1" "sk_test"
                   (always forbidden_403) forbidden_403
                   (JObj [("message", JStr "forbidden"); ("code", JStr "E_FORBIDDEN")])
                   (conj eq_refl eq_refl) eq_refl _) "forbidden" eq_refl _);
    discriminate.
Defined.

Lemma listCrossmintWallets_http_error_witness :
  ok not_found_404 = false
  /\ result (listCrossmintWallets tt "sk_test") (always not_found_404) =
       Normal (error_literal "HTTP error! status: 404" (str "WALLET_LIST_ERROR")).
Proof.
  split; [reflexivity|].
  refine (proj1 (proj2 (listCrossmintWallets_http_error unit tt "sk_test"
                          (always not_found_404) not_found_404 (JObj [])
                          (conj eq_refl eq_refl) eq_refl _)) eq_refl).
  discriminate.
Defined.

Lemma success_without_fields_witness :
  ok plain_200 = true
  /\ without_fields (JStr "OK")
  /\ result (getCrossmintWallet tt "w1" "sk_test") (always plain_200) =
       Normal [("status", str "success"); ("walletId", Undefined); ("address", Undefined)].
Proof.
  split; [reflexivity|]. split; [exact I|].
  exact (proj1 (proj2 (success_without_fields unit tt "id:u1" "w1" "sk_test"
                         (always plain_200) plain_200 (JStr "OK") eq_refl I))
           (conj eq_refl eq_refl)).
Defined.

Lemma http_error_message_names_status_witness :
  ok not_found_404 = false
  /\ exists digits : string,
       result (getCrossmintWallet tt "w1" "sk_test") (always not_found_404) =
         Normal (error_literal ("HTTP error! status: " ++ digits)%string
                   (str "WALLET_FETCH_ERROR"))
       /\ option_map Nat.of_uint (NilEmpty.uint_of_string digits) = Some 404.
Proof.
  split; [reflexivity|].
  refine (http_error_message_names_status unit tt "w1" "sk_test"
            (always not_found_404) not_found_404 (JObj [])
            (conj eq_refl eq_refl) eq_refl _ eq_refl).
  discriminate.
Defined.
